(** * ip_calc: derived properties of an IPv4 address in CIDR notation

    A shallow embedding of [ip_calc.py].  Python integers are [Z], Python
    lists are [list], text is [string] (ASCII text: one [ascii] per
    character), and a call that can raise returns a [result], which either
    carries the value or names the exception raised.  Every function keeps
    the name it has in the Python module. *)

From Stdlib Require Import ZArith Ascii String Bool Lia.
From Stdlib Require Import Decimal DecimalString DecimalPos DecimalN DecimalZ.
From Stdlib Require QArith.
From stdpp Require Import base numbers list strings.

Local Open Scope Z_scope.

(** ** Exceptions and the result monad *)

Inductive exn : Type :=
| ValueError
| IndexError.

Inductive result (A : Type) : Type :=
| Ok (a : A)
| Raise (e : exn).

Arguments Ok {A} a.
Arguments Raise {A} e.

#[global] Instance result_ret : MRet result := fun A a => Ok a.
#[global] Instance result_bind : MBind result := fun A B f m =>
  match m with
  | Ok a => f a
  | Raise e => Raise e
  end.
#[global] Instance result_fmap : FMap result := fun A B f m =>
  match m with
  | Ok a => Ok (f a)
  | Raise e => Raise e
  end.

(** [list(map(f, xs))]: the calls are made from left to right and the first
    exception ends the traversal. *)
Fixpoint map_result {A B} (f : A -> result B) (xs : list A) : result (list B) :=
  match xs with
  | [] => Ok []
  | x :: r => y ← f x; ys ← map_result f r; Ok (y :: ys)
  end.

(** [for x in xs: s = body(s, x)] on a loop state [s]. *)
Fixpoint for_each {A S} (body : S -> A -> result S) (xs : list A) (s : S)
  : result S :=
  match xs with
  | [] => Ok s
  | x :: r => s' ← body s x; for_each body r s'
  end.

(** ** Python built-ins used by the module *)

(** [range(n)]: empty when [n <= 0]. *)
Definition range (n : Z) : list Z := map Z.of_nat (seq 0 (Z.to_nat n)).

(** [enumerate(xs)]. *)
Definition enumerate {A} (xs : list A) : list (Z * A) :=
  zip (range (Z.of_nat (length xs))) xs.

(** List subscripts: a negative index counts from the end, and an index
    outside the list raises [IndexError]. *)
Definition py_index {A} (xs : list A) (i : Z) : Z :=
  if i <? 0 then i + Z.of_nat (length xs) else i.

Definition py_getitem {A} (xs : list A) (i : Z) : result A :=
  let j := py_index xs i in
  if j <? 0 then Raise IndexError
  else match xs !! Z.to_nat j with
       | Some x => Ok x
       | None => Raise IndexError
       end.

Definition py_setitem {A} (xs : list A) (i : Z) (x : A) : result (list A) :=
  let j := py_index xs i in
  if j <? 0 then Raise IndexError
  else match xs !! Z.to_nat j with
       | Some _ => Ok (<[Z.to_nat j := x]> xs)
       | None => Raise IndexError
       end.

(** [s.split(sep)] for a one-character separator.  Without [maxsplit],
    [s.rsplit(sep)] returns the same list. *)
Fixpoint str_split (sep : ascii) (s : string) : list string :=
  match s with
  | EmptyString => [EmptyString]
  | String c r =>
      if Ascii.eqb c sep then EmptyString :: str_split sep r
      else match str_split sep r with
           | h :: t => String c h :: t
           | [] => [String c EmptyString]
           end
  end.

Definition str_rsplit (sep : ascii) (s : string) : list string :=
  str_split sep s.

(** [sep.join(xs)]. *)
Fixpoint str_join (sep : string) (xs : list string) : string :=
  match xs with
  | [] => ""
  | [x] => x
  | x :: r => x +:+ sep +:+ str_join sep r
  end.

(** *** [int(s)] on text

    [int] drops the white space around the literal, reads an optional
    sign, and then wants decimal digits in which single underscores may
    separate digits.  Anything else raises [ValueError].  (The optional
    limit some interpreters put on the number of digits is not part of
    the model.) *)

Definition is_space (c : ascii) : bool :=
  let n := nat_of_ascii c in
  (((9 <=? n) && (n <=? 13)) || (n =? 32))%nat.

Definition is_digit (c : ascii) : bool :=
  let n := nat_of_ascii c in
  ((48 <=? n) && (n <=? 57))%nat.

Fixpoint lstrip (s : string) : string :=
  match s with
  | EmptyString => EmptyString
  | String c r => if is_space c then lstrip r else s
  end.

Fixpoint rstrip (s : string) : string :=
  match s with
  | EmptyString => EmptyString
  | String c r =>
      match rstrip r with
      | EmptyString => if is_space c then EmptyString else String c EmptyString
      | r' => String c r'
      end
  end.

Definition strip (s : string) : string := rstrip (lstrip s).

(** The digits of a literal, most significant first.  [prev] tells whether
    the previous character was a digit: an underscore is only accepted
    between two digits. *)
Fixpoint literal_digits (prev : bool) (s : string) : option uint :=
  match s with
  | EmptyString => if prev then Some Nil else None
  | String c r =>
      if is_digit c then uint_of_char c (literal_digits true r)
      else if Ascii.eqb c "_" && prev then literal_digits false r
      else None
  end.

Definition py_int (s : string) : result Z :=
  let lit :=
    match strip s with
    | EmptyString => None
    | String c r =>
        if Ascii.eqb c "-" then Neg <$> literal_digits false r
        else if Ascii.eqb c "+" then Pos <$> literal_digits false r
        else Pos <$> literal_digits false (String c r)
    end in
  match lit with
  | Some d => Ok (Z.of_int d)
  | None => Raise ValueError
  end.

(** [str(n)] for an integer: decimal digits, ["-"] in front of a negative
    number, no leading zeros. *)
Definition py_str (n : Z) : string := NilZero.string_of_int (Z.to_int n).

(** [str(b)] for a boolean. *)
Definition py_str_bool (b : bool) : string := if b then "True" else "False".

(** ['{:08b}'.format(n)]: binary digits, zero-padded to a width of 8; the
    sign of a negative number takes one of the 8 places. *)
Fixpoint pos_binary (p : positive) (acc : string) : string :=
  match p with
  | xH => String "1" acc
  | xO q => pos_binary q (String "0" acc)
  | xI q => pos_binary q (String "1" acc)
  end.

Fixpoint zeros (n : nat) (s : string) : string :=
  match n with
  | O => s
  | S k => String "0" (zeros k s)
  end.

Definition zero_pad (width : nat) (s : string) : string :=
  zeros (width - String.length s) s.

Definition format_08b (n : Z) : string :=
  match n with
  | Z0 => zero_pad 8 "0"
  | Zpos p => zero_pad 8 (pos_binary p "")
  | Zneg p => String "-" (zero_pad 7 (pos_binary p ""))
  end.

(** [str(x)]: the interface [join_address] relies on for the items of its
    argument, which are integers or, for the binary mask, text. *)
Class PyStr (A : Type) := to_str : A -> string.

#[global] Instance PyStr_int : PyStr Z := py_str.
#[global] Instance PyStr_text : PyStr string := fun s => s.

(** The values handed to [print]: text, integers, floats and booleans.  A
    float is kept as the exact rational it stands for; rounding to a
    binary64 is not part of the model. *)
Inductive pyval : Type :=
| PyText (s : string)
| PyInt (n : Z)
| PyFloat (q : QArith_base.Q)
| PyBool (b : bool).

(** [2 ** e - 2]: an integer when [e] is not negative, a float otherwise. *)
Definition py_pow2_minus2 (e : Z) : pyval :=
  if 0 <=? e then PyInt (2 ^ e - 2)
  else PyFloat (QArith_base.Qminus
                  (QArith_base.Qpower (QArith_base.inject_Z 2) e)
                  (QArith_base.inject_Z 2)).

(** ** The functions of [ip_calc.py] *)

Definition FULL_BYTE : Z := 255.

Definition get_ip_from_raw_address (raw_address : string) : result string :=
  py_getitem (str_rsplit "/" raw_address) 0.

Definition split_address (raw_address : string) : result (list Z) :=
  ip_address ← get_ip_from_raw_address raw_address;
  map_result py_int (str_split "." ip_address).

Definition join_address {A} `{PyStr A} (bytes_lst : list A) : string :=
  str_join "." (map to_str bytes_lst).

Definition invert_address (bytes_lst : list Z) : list Z :=
  fold_left (fun inverted byte => inverted ++ [Z.lxor byte FULL_BYTE])
            bytes_lst [].

Definition get_network_mask (raw_address : string) : result (list Z) :=
  field ← py_getitem (str_rsplit "/" raw_address) 1;
  num_bits ← py_int field;
  for_each (fun mask bit =>
              old ← py_getitem mask (bit / 8);
              py_setitem mask (bit / 8) (old + Z.shiftl 1 (7 - bit mod 8)))
           (range num_bits) [0; 0; 0; 0].

(** The body of the loop of [get_network_mask], for statements about it. *)
Abbreviation mask_body :=
  (fun mask bit =>
     old ← py_getitem mask (bit / 8);
     py_setitem mask (bit / 8) (old + Z.shiftl 1 (7 - bit mod 8))).

Definition get_network_address_from_raw_address (raw_address : string)
  : result string :=
  ip_address ← split_address raw_address;
  mask ← get_network_mask raw_address;
  network_address ←
    for_each (fun network_address idx =>
                byte ← py_getitem ip_address idx;
                m ← py_getitem mask idx;
                py_setitem network_address idx (Z.land byte m))
             (range 4) [0; 0; 0; 0];
  Ok (join_address network_address).

Definition get_broadcast_address_from_raw_address (raw_address : string)
  : result string :=
  ip ← get_ip_from_raw_address raw_address;
  ip_address ← split_address ip;
  network_mask ← get_network_mask raw_address;
  let broadcast_mask := invert_address network_mask in
  broadcast_address ←
    for_each (fun broadcast_address '(idx, byte) =>
                m ← py_getitem broadcast_mask idx;
                Ok (broadcast_address ++ [Z.lor byte m]))
             (enumerate ip_address) [];
  Ok (join_address broadcast_address).

Definition get_binary_mask_from_raw_address (raw_address : string)
  : result string :=
  network_mask ← get_network_mask raw_address;
  let network_binary_mask := map format_08b network_mask in
  Ok (join_address network_binary_mask).

Definition get_first_usable_ip_address_from_raw_address (raw_address : string)
  : result string :=
  network_address_str ← get_network_address_from_raw_address raw_address;
  network_address ← split_address network_address_str;
  last ← py_getitem network_address (-1);
  network_address ← py_setitem network_address (-1) (last + 1);
  Ok (join_address network_address).

Definition get_penultimate_usable_ip_address_from_raw_address
  (raw_address : string) : result string :=
  broadcast_str ← get_broadcast_address_from_raw_address raw_address;
  broadcast_address ← split_address broadcast_str;
  last ← py_getitem broadcast_address (-1);
  broadcast_address ← py_setitem broadcast_address (-1) (last - 1);
  penultimate_ip ←
    for_each (fun penultimate_ip '(idx, byte) =>
                b ← py_getitem broadcast_address idx;
                b' ← py_getitem broadcast_address idx;
                Ok (penultimate_ip ++ [Z.land (Z.lor byte b) b']))
             (enumerate broadcast_address) [];
  last ← py_getitem penultimate_ip (-1);
  penultimate_ip ← py_setitem penultimate_ip (-1) (last - 1);
  Ok (join_address penultimate_ip).

Definition get_number_of_usable_hosts_from_raw_address (raw_address : string)
  : result pyval :=
  field ← py_getitem (str_rsplit "/" raw_address) 1;
  num_network_bits ← py_int field;
  Ok (py_pow2_minus2 (32 - num_network_bits)).

(** [lo <= xs[0] <= hi]: the subscript is evaluated once. *)
Definition first_between (lo hi : Z) (xs : list Z) : result bool :=
  x ← py_getitem xs 0; Ok ((lo <=? x) && (x <=? hi)).

Definition get_ip_class_from_raw_address (raw_address : string)
  : result string :=
  ip_address ← split_address raw_address;
  a ← first_between 1 126 ip_address;
  if a : bool then Ok "A" else
  b ← first_between 128 191 ip_address;
  if b : bool then Ok "B" else
  c ← first_between 192 223 ip_address;
  if c : bool then Ok "C" else
  d ← first_between 224 239 ip_address;
  if d : bool then Ok "D" else
  e ← first_between 240 247 ip_address;
  if e : bool then Ok "E" else
  Ok "Unknown class".

Definition check_private_ip_address_from_raw_address (raw_address : string)
  : result bool :=
  ip_address ← split_address raw_address;
  x ← py_getitem ip_address 0;
  let is_first_block := x =? 10 in
  y ← py_getitem ip_address 0;
  is_second_block ←
    (if y =? 172
     then z ← py_getitem ip_address 1; Ok ((16 <=? z) && (z <=? 31))
     else Ok false);
  let is_third_block := bool_decide (take 2 ip_address = [192; 168]) in
  Ok (is_first_block || is_second_block || is_third_block).

(** [get_info] writes one labelled line per field.  The output is kept as
    the list of (label, value) pairs handed to [print]; the argument of a
    [print] is evaluated before anything is written, so an exception ends
    [get_info] with the earlier lines already out. *)
Fixpoint print_all (jobs : list (string * result pyval))
  : list (string * pyval) * result unit :=
  match jobs with
  | [] => ([], Ok tt)
  | (label, Ok v) :: rest =>
      let (out, r) := print_all rest in ((label, v) :: out, r)
  | (_, Raise e) :: _ => ([], Raise e)
  end.

Definition get_info (raw_address : string)
  : list (string * pyval) * result unit :=
  print_all
    [ ("IP address:", PyText <$> get_ip_from_raw_address raw_address);
      ("Network Address:",
       PyText <$> get_network_address_from_raw_address raw_address);
      ("Broadcast Address:",
       PyText <$> get_broadcast_address_from_raw_address raw_address);
      ("Binary Subnet Mask:",
       PyText <$> get_binary_mask_from_raw_address raw_address);
      ("First usable host IP:",
       PyText <$> get_first_usable_ip_address_from_raw_address raw_address);
      ("Penultimate usable host IP:",
       PyText <$>
         get_penultimate_usable_ip_address_from_raw_address raw_address);
      ("Number of usable Hosts:",
       get_number_of_usable_hosts_from_raw_address raw_address);
      ("IP class:", PyText <$> get_ip_class_from_raw_address raw_address);
      ("IP type private:",
       PyBool <$> check_private_ip_address_from_raw_address raw_address) ].

(** ** Vocabulary of the specification *)

(** The prefix length a raw address carries: [int(raw.rsplit('/')[1])]. *)
Definition raw_prefix_length (raw_address : string) : result Z :=
  field ← py_getitem (str_rsplit "/" raw_address) 1;
  py_int field.

(** Every character of [s] satisfies [p]. *)
Fixpoint all_chars (p : ascii -> bool) (s : string) : bool :=
  match s with
  | EmptyString => true
  | String c r => p c && all_chars p r
  end.

(** The character [c] is not the separator [sep]. *)
Definition differs (sep : ascii) (c : ascii) : bool := negb (Ascii.eqb c sep).

(** A decimal octet string or prefix length: one or more digits. *)
Definition is_decimal (s : string) : bool :=
  match s with
  | EmptyString => false
  | _ => all_chars is_digit s
  end.

(** The number a digit string denotes, read from the left. *)
Definition digit_value (c : ascii) : Z := Z.of_nat (nat_of_ascii c) - 48.

Fixpoint horner (acc : Z) (s : string) : Z :=
  match s with
  | EmptyString => acc
  | String c r => horner (10 * acc + digit_value c) r
  end.

Definition decimal_value (s : string) : Z := horner 0 s.

(** The canonical form of a digit string: leading zeros dropped, one digit
    kept when nothing else is left. *)
Fixpoint drop_zeros (s : string) : string :=
  match s with
  | String c r => if Ascii.eqb c "0" then drop_zeros r else s
  | EmptyString => EmptyString
  end.

Definition canonical (s : string) : string :=
  match drop_zeros s with
  | EmptyString => "0"
  | t => t
  end.

(** The dotted text [A.B.C.D] and the raw address [A.B.C.D/P]. *)
Definition dotted (A B C D : string) : string :=
  A +:+ "." +:+ B +:+ "." +:+ C +:+ "." +:+ D.

Definition cidr (A B C D P : string) : string :=
  dotted A B C D +:+ "/" +:+ P.

(** A raw address is well formed when [A], [B], [C], [D] and [P] are
    decimal. *)
Definition well_formed (A B C D P : string) : Prop :=
  is_decimal A = true /\ is_decimal B = true /\ is_decimal C = true /\
  is_decimal D = true /\ is_decimal P = true.

Definition is_byte (n : Z) : Prop := 0 <= n <= 255.

(** A Byte Address: exactly 4 integers, each in [0,255]. *)
Definition byte_address (bytes : list Z) : Prop :=
  length bytes = 4%nat /\ Forall is_byte bytes.

(** The same for an address given as dotted text. *)
Definition is_byteb (n : Z) : bool := (0 <=? n) && (n <=? 255).

Definition byte_address_text (s : string) : bool :=
  match split_address s with
  | Ok bytes => (length bytes =? 4)%nat && forallb is_byteb bytes
  | Raise _ => false
  end.

(** Bit [i] of an address, counted from the most significant bit of the
    first byte: bit [7 - i mod 8] of byte [i / 8]. *)
Definition address_bit (bytes : list Z) (i : Z) : bool :=
  Z.testbit (nth (Z.to_nat (i / 8)) bytes 0) (7 - i mod 8).

(** The 32-bit number an address stands for, first byte most significant. *)
Definition address_value (bytes : list Z) : Z :=
  fold_left (fun acc byte => acc * 256 + byte) bytes 0.

(** The classes of the specification with their ranges of first octets,
    and the text the module returns for each. *)
Inductive ip_class : Type := ClassA | ClassB | ClassC | ClassD | ClassE | Unknown.

Definition class_range (c : ip_class) (first_octet : Z) : Prop :=
  match c with
  | ClassA => 1 <= first_octet <= 126
  | ClassB => 128 <= first_octet <= 191
  | ClassC => 192 <= first_octet <= 223
  | ClassD => 224 <= first_octet <= 239
  | ClassE => 240 <= first_octet <= 247
  | Unknown => first_octet < 1 \/ first_octet = 127 \/ 247 < first_octet
  end.

Definition class_text (c : ip_class) : string :=
  match c with
  | ClassA => "A"
  | ClassB => "B"
  | ClassC => "C"
  | ClassD => "D"
  | ClassE => "E"
  | Unknown => "Unknown class"
  end.
(** ** Further vocabulary *)

(** The number a string of binary digits denotes, read from the left. *)
Fixpoint horner2 (acc : Z) (s : string) : Z :=
  match s with
  | EmptyString => acc
  | String c r => horner2 (2 * acc + digit_value c) r
  end.

Definition binary_value (s : string) : Z := horner2 0 s.

Definition is_bit (c : ascii) : bool := Ascii.eqb c "0" || Ascii.eqb c "1".

(** [n] times the character [c]. *)
Fixpoint replicate_char (n : nat) (c : ascii) : string :=
  match n with
  | O => EmptyString
  | S k => String c (replicate_char k c)
  end.

(** The 32 mask bits of prefix length [p] as text: [p] ones, then zeros. *)
Definition prefix_bits (p : Z) : string :=
  replicate_char (Z.to_nat p) "1" +:+ replicate_char (Z.to_nat (32 - p)) "0".


(** * Properties *)

(** ** The result monad *)

Lemma for_each_app {A S} (body : S -> A -> result S) (xs ys : list A) (s : S) :
  for_each body (xs ++ ys) s = (for_each body xs s ≫= for_each body ys).
Proof.
  revert s. induction xs as [|x xs IH]; intros s; simpl; [done|].
  destruct (body s x) as [s'|e]; simpl; [apply IH | done].
Qed.

(** ** Text *)

Lemma all_chars_app p s t :
  all_chars p (s +:+ t) = all_chars p s && all_chars p t.
Proof.
  induction s as [|c s IH]; simpl; [done|].
  by rewrite IH, andb_assoc.
Qed.

Lemma all_chars_impl (p q : ascii -> bool) s :
  (forall c, p c = true -> q c = true) ->
  all_chars p s = true -> all_chars q s = true.
Proof.
  intros Hpq. induction s as [|c s IH]; simpl; [done|].
  intros [Hc Hs]%andb_true_iff. rewrite (Hpq _ Hc). by apply IH.
Qed.

Lemma str_split_free sep s :
  all_chars (differs sep) s = true -> str_split sep s = [s].
Proof.
  induction s as [|c s IH]; simpl; [done|].
  unfold differs at 1. intros [Hc Hs]%andb_true_iff.
  apply negb_true_iff in Hc. rewrite Hc, (IH Hs). done.
Qed.

Lemma str_split_cons sep s t :
  all_chars (differs sep) s = true ->
  str_split sep (s +:+ String sep t) = s :: str_split sep t.
Proof.
  induction s as [|c s IH]; simpl.
  - intros _. by rewrite Ascii.eqb_refl.
  - unfold differs at 1. intros [Hc Hs]%andb_true_iff.
    apply negb_true_iff in Hc. rewrite Hc, (IH Hs). done.
Qed.

Lemma str_split_join sep (xs : list string) :
  xs <> [] ->
  Forall (fun x => all_chars (differs sep) x = true) xs ->
  str_split sep (str_join (String sep EmptyString) xs) = xs.
Proof.
  intros Hne Hall. induction Hall as [|x xs Hx Hxs IH]; [done|].
  destruct xs as [|y ys].
  - simpl. by apply str_split_free.
  - change (str_join (String sep EmptyString) (x :: y :: ys))
      with (x +:+ String sep (str_join (String sep EmptyString) (y :: ys))).
    rewrite str_split_cons by done. f_equal. by apply IH.
Qed.

Lemma lstrip_id c s : is_space c = false -> lstrip (String c s) = String c s.
Proof. intros H. simpl. by rewrite H. Qed.

Lemma rstrip_id s :
  all_chars (fun c => negb (is_space c)) s = true -> rstrip s = s.
Proof.
  induction s as [|c s IH]; simpl; [done|].
  intros [Hc Hs]%andb_true_iff. apply negb_true_iff in Hc.
  rewrite (IH Hs), Hc. by destruct s.
Qed.

Lemma strip_id s :
  all_chars (fun c => negb (is_space c)) s = true -> strip s = s.
Proof.
  intros H. unfold strip. destruct s as [|c s]; [done|].
  pose proof H as H'. simpl in H'. apply andb_true_iff in H' as [Hc _].
  apply negb_true_iff in Hc. rewrite (lstrip_id _ _ Hc). by apply rstrip_id.
Qed.

(** A digit is one of the ten characters ["0"] to ["9"]. *)
Lemma is_digit_cases c :
  is_digit c = true ->
  In c ["0"; "1"; "2"; "3"; "4"; "5"; "6"; "7"; "8"; "9"]%char.
Proof.
  destruct c as [[|] [|] [|] [|] [|] [|] [|] [|]];
    vm_compute; intros H; try discriminate H; tauto.
Qed.

Ltac digit_cases c H :=
  let Hin := fresh in
  pose proof (is_digit_cases c H) as Hin;
  repeat (destruct Hin as [<- | Hin]); [.. | destruct Hin].

Lemma digit_not_space c : is_digit c = true -> is_space c = false.
Proof. intros H. digit_cases c H; reflexivity. Qed.

Lemma digit_not_sign c :
  is_digit c = true -> Ascii.eqb c "-" = false /\ Ascii.eqb c "+" = false.
Proof. intros H. digit_cases c H; split; reflexivity. Qed.

Lemma digit_differs sep c :
  is_digit sep = false -> is_digit c = true -> differs sep c = true.
Proof.
  intros Hsep Hc. unfold differs. apply negb_true_iff, Ascii.eqb_neq.
  intros ->. congruence.
Qed.

(** On digits alone, the literal reader of [int] is the plain reader of
    decimal digits. *)
Lemma literal_digits_plain prev c s :
  all_chars is_digit (String c s) = true ->
  literal_digits prev (String c s) = NilEmpty.uint_of_string (String c s).
Proof.
  revert prev c. induction s as [|c' s IH]; intros prev c; simpl.
  - intros [Hc _]%andb_true_iff. by rewrite Hc.
  - intros [Hc Hs]%andb_true_iff. rewrite Hc.
    specialize (IH true c' Hs). simpl in IH. by rewrite IH.
Qed.

(** The digits of a digit string denote its Horner value. *)
Lemma uint_of_digits s :
  all_chars is_digit s = true ->
  forall e, exists d,
    NilEmpty.uint_of_string s = Some d /\
    Z.of_N (Unsigned.of_lu (revapp d e)) = horner (Z.of_N (Unsigned.of_lu e)) s.
Proof.
  induction s as [|c s IH]; simpl.
  - intros _ e. by exists Nil.
  - intros [Hc Hs]%andb_true_iff e.
    digit_cases c Hc;
      match goal with
      | |- context [uint_of_char ?ch _] =>
          match ch with
          | "0"%char => destruct (IH Hs (D0 e)) as (d & Hd & Hv); exists (D0 d)
          | "1"%char => destruct (IH Hs (D1 e)) as (d & Hd & Hv); exists (D1 d)
          | "2"%char => destruct (IH Hs (D2 e)) as (d & Hd & Hv); exists (D2 d)
          | "3"%char => destruct (IH Hs (D3 e)) as (d & Hd & Hv); exists (D3 d)
          | "4"%char => destruct (IH Hs (D4 e)) as (d & Hd & Hv); exists (D4 d)
          | "5"%char => destruct (IH Hs (D5 e)) as (d & Hd & Hv); exists (D5 d)
          | "6"%char => destruct (IH Hs (D6 e)) as (d & Hd & Hv); exists (D6 d)
          | "7"%char => destruct (IH Hs (D7 e)) as (d & Hd & Hv); exists (D7 d)
          | "8"%char => destruct (IH Hs (D8 e)) as (d & Hd & Hv); exists (D8 d)
          | "9"%char => destruct (IH Hs (D9 e)) as (d & Hd & Hv); exists (D9 d)
          end
      end;
      (split; [by rewrite Hd|]);
      simpl revapp; rewrite Hv; f_equal;
      unfold digit_value; simpl Unsigned.of_lu;
      match goal with
      | |- context [Z.of_nat (nat_of_ascii ?ch)] =>
          let v := eval vm_compute in (Z.of_nat (nat_of_ascii ch)) in
          change (Z.of_nat (nat_of_ascii ch)) with v
      end; lia.
Qed.

Lemma uint_of_decimal s :
  all_chars is_digit s = true ->
  exists d, NilEmpty.uint_of_string s = Some d /\ Z.of_uint d = decimal_value s.
Proof.
  intros Hs. destruct (uint_of_digits s Hs Nil) as (d & Hd & Hv).
  exists d. split; [done|].
  unfold Z.of_uint. rewrite Unsigned.of_uint_alt. exact Hv.
Qed.

(** ** [int] and [str] *)

Lemma digits_no_space s :
  all_chars is_digit s = true ->
  all_chars (fun c => negb (is_space c)) s = true.
Proof.
  apply all_chars_impl. intros c Hc. by rewrite (digit_not_space c Hc).
Qed.

Lemma py_int_digits s d :
  s <> EmptyString -> all_chars is_digit s = true ->
  NilEmpty.uint_of_string s = Some d ->
  py_int s = Ok (Z.of_uint d) /\
  py_int (String "-" s) = Ok (- Z.of_uint d).
Proof.
  intros Hne Hs Hd. destruct s as [|c s]; [done|].
  pose proof (digits_no_space _ Hs) as Hsp.
  pose proof Hs as Hc. simpl in Hc. apply andb_true_iff in Hc as [Hc _].
  destruct (digit_not_sign c Hc) as [Hm Hp].
  split; unfold py_int.
  - rewrite (strip_id _ Hsp), Hm, Hp, (literal_digits_plain _ _ _ Hs), Hd. done.
  - rewrite strip_id by (simpl; simpl in Hsp; by rewrite Hsp).
    rewrite Ascii.eqb_refl, (literal_digits_plain _ _ _ Hs), Hd. done.
Qed.

(** [int] of a decimal string is the number the digits denote. *)
Lemma py_int_decimal s :
  is_decimal s = true -> py_int s = Ok (decimal_value s).
Proof.
  intros Hs. assert (s <> EmptyString /\ all_chars is_digit s = true) as [Hne Hd].
  { destruct s; [done|]. by split. }
  destruct (uint_of_decimal s Hd) as (d & Hu & Hv).
  rewrite <- Hv. by apply (py_int_digits s d).
Qed.

Lemma string_of_uint_digits d :
  all_chars is_digit (NilEmpty.string_of_uint d) = true.
Proof. induction d; simpl; [done | by rewrite ?IHd ..]. Qed.

Lemma string_of_uint_nonempty d :
  d <> Nil -> NilEmpty.string_of_uint d <> EmptyString.
Proof. by destruct d. Qed.

(** [str] of an integer is an optional minus sign and digits. *)
Lemma py_str_shape n :
  exists d, d <> Nil /\ Z.of_uint d = Z.abs n /\
    py_str n = (if n <? 0 then String "-" (NilEmpty.string_of_uint d)
                else NilEmpty.string_of_uint d).
Proof.
  destruct n as [|p|p].
  - exists (D0 Nil). by repeat split.
  - exists (Pos.to_uint p). pose proof (Unsigned.to_uint_nonnil p) as Hnn.
    repeat split; [done | |].
    + pose proof (DecimalZ.of_to (Z.pos p)) as H. exact H.
    + unfold py_str. simpl. by destruct (Pos.to_uint p).
  - exists (Pos.to_uint p). pose proof (Unsigned.to_uint_nonnil p) as Hnn.
    repeat split; [done | |].
    + pose proof (DecimalZ.of_to (Z.pos p)) as H. exact H.
    + unfold py_str. simpl. by destruct (Pos.to_uint p).
Qed.

(** Reading back what [str] wrote gives the integer again. *)
Lemma py_int_py_str n : py_int (py_str n) = Ok n.
Proof.
  destruct (py_str_shape n) as (d & Hnn & Hv & ->).
  destruct (py_int_digits (NilEmpty.string_of_uint d) d) as [Hpos Hneg];
    [by apply string_of_uint_nonempty | apply string_of_uint_digits
    | apply NilEmpty.usu |].
  destruct (Z.ltb_spec n 0).
  - rewrite Hneg. f_equal. lia.
  - rewrite Hpos. f_equal. lia.
Qed.

(** [str] of an integer holds no separator. *)
Lemma py_str_free sep n :
  is_digit sep = false -> sep <> "-"%char ->
  all_chars (differs sep) (py_str n) = true.
Proof.
  intros Hsep Hm. destruct (py_str_shape n) as (d & _ & _ & ->).
  assert (all_chars (differs sep) (NilEmpty.string_of_uint d) = true) as Hd.
  { eapply all_chars_impl; [|apply string_of_uint_digits].
    intros c. by apply digit_differs. }
  destruct (n <? 0); [|done]. simpl. rewrite Hd, andb_true_r.
  unfold differs. apply negb_true_iff, Ascii.eqb_neq. congruence.
Qed.

Lemma drop_zeros_nzhead d :
  NilEmpty.string_of_uint (nzhead d) = drop_zeros (NilEmpty.string_of_uint d).
Proof. induction d; simpl; done. Qed.

(** [str] of the value of a decimal string is its canonical form. *)
Lemma py_str_decimal s :
  is_decimal s = true -> py_str (decimal_value s) = canonical s.
Proof.
  intros Hs. assert (all_chars is_digit s = true) as Hd by by destruct s.
  destruct (uint_of_decimal s Hd) as (d & Hu & Hv).
  rewrite <- Hv. unfold py_str.
  change (Z.of_uint d) with (Z.of_int (Pos d)). rewrite DecimalZ.to_of.
  apply NilEmpty.sus in Hu. subst s. unfold canonical.
  rewrite <- drop_zeros_nzhead. simpl. unfold unorm.
  by destruct (nzhead d).
Qed.

(** ** Parsing and formatting addresses *)

Lemma get_ip_free s :
  all_chars (differs "/") s = true -> get_ip_from_raw_address s = Ok s.
Proof.
  intros H. unfold get_ip_from_raw_address, str_rsplit.
  by rewrite str_split_free.
Qed.

Lemma get_ip_cidr ip P :
  all_chars (differs "/") ip = true ->
  get_ip_from_raw_address (ip +:+ String "/" P) = Ok ip.
Proof.
  intros H. unfold get_ip_from_raw_address, str_rsplit.
  by rewrite str_split_cons.
Qed.

Lemma prefix_field_cidr ip P :
  all_chars (differs "/") ip = true -> all_chars (differs "/") P = true ->
  py_getitem (str_rsplit "/" (ip +:+ String "/" P)) 1 = Ok P.
Proof.
  intros H HP. unfold str_rsplit.
  by rewrite str_split_cons, str_split_free.
Qed.

Lemma join_address_free (bytes : list Z) :
  all_chars (differs "/") (join_address bytes) = true.
Proof.
  unfold join_address. induction bytes as [|b bytes IH]; [done|].
  destruct bytes as [|b' bytes].
  - simpl. by apply py_str_free.
  - change (map to_str (b :: b' :: bytes))
      with (py_str b :: map to_str (b' :: bytes)).
    change (str_join "." (py_str b :: map to_str (b' :: bytes)))
      with (py_str b +:+ String "." (str_join "." (map to_str (b' :: bytes)))).
    rewrite all_chars_app. simpl. simpl in IH. rewrite IH.
    by rewrite py_str_free.
Qed.

Lemma map_py_int_py_str (bytes : list Z) :
  map_result py_int (map py_str bytes) = Ok bytes.
Proof.
  induction bytes as [|b bytes IH]; simpl; [done|].
  by rewrite py_int_py_str, IH.
Qed.

(** [split_address] undoes [join_address]. *)
Lemma split_join_address (bytes : list Z) :
  bytes <> [] -> split_address (join_address bytes) = Ok bytes.
Proof.
  intros Hne. unfold split_address.
  rewrite (get_ip_free _ (join_address_free bytes)). simpl.
  unfold join_address.
  rewrite (str_split_join "." (map to_str bytes)).
  - apply map_py_int_py_str.
  - by destruct bytes.
  - apply Forall_forall. intros s Hin.
    apply list_elem_of_In, in_map_iff in Hin as (n & <- & _).
    by apply py_str_free.
Qed.

Lemma decimal_free sep s :
  is_digit sep = false -> is_decimal s = true ->
  all_chars (differs sep) s = true.
Proof.
  intros Hsep Hs. apply (all_chars_impl is_digit).
  - intros c. by apply digit_differs.
  - by destruct s.
Qed.

Lemma dotted_free A B C D :
  is_decimal A = true -> is_decimal B = true -> is_decimal C = true ->
  is_decimal D = true -> all_chars (differs "/") (dotted A B C D) = true.
Proof.
  intros HA HB HC HD. unfold dotted.
  rewrite !all_chars_app, (decimal_free "/" A), (decimal_free "/" B),
    (decimal_free "/" C), (decimal_free "/" D) by done. done.
Qed.

Lemma split_address_dotted A B C D :
  is_decimal A = true -> is_decimal B = true -> is_decimal C = true ->
  is_decimal D = true ->
  split_address (dotted A B C D) =
    Ok [decimal_value A; decimal_value B; decimal_value C; decimal_value D].
Proof.
  intros HA HB HC HD. unfold split_address.
  rewrite get_ip_free by by apply dotted_free.
  simpl. unfold dotted.
  change (A +:+ "." +:+ B +:+ "." +:+ C +:+ "." +:+ D)
    with (A +:+ String "." (B +:+ String "." (C +:+ String "." D))).
  rewrite (str_split_cons "." A), (str_split_cons "." B),
    (str_split_cons "." C), (str_split_free "." D)
    by by apply decimal_free.
  simpl. by rewrite !py_int_decimal.
Qed.

(** What the parser sees in a well-formed raw address. *)
Lemma parse_cidr A B C D P :
  well_formed A B C D P ->
  get_ip_from_raw_address (cidr A B C D P) = Ok (dotted A B C D) /\
  split_address (cidr A B C D P) =
    Ok [decimal_value A; decimal_value B; decimal_value C; decimal_value D] /\
  raw_prefix_length (cidr A B C D P) = Ok (decimal_value P).
Proof.
  intros (HA & HB & HC & HD & HP).
  pose proof (dotted_free A B C D HA HB HC HD) as Hfree.
  assert (get_ip_from_raw_address (cidr A B C D P) = Ok (dotted A B C D)) as Hip.
  { unfold cidr. change ("/" +:+ P) with (String "/" P). by apply get_ip_cidr. }
  split; [done|]. split.
  - unfold split_address at 1. rewrite Hip. simpl.
    pose proof (split_address_dotted A B C D HA HB HC HD) as H.
    unfold split_address in H. by rewrite get_ip_free in H.
  - unfold raw_prefix_length, cidr. change ("/" +:+ P) with (String "/" P).
    rewrite prefix_field_cidr by (done || by apply decimal_free).
    simpl. by apply py_int_decimal.
Qed.

(** The address part of a raw address holds no ["/"], so taking it twice
    changes nothing. *)
Lemma str_split_head_free sep s h t :
  str_split sep s = h :: t -> all_chars (differs sep) h = true.
Proof.
  revert h t. induction s as [|c s IH]; intros h t; simpl.
  - by intros [= <- <-].
  - destruct (Ascii.eqb c sep) eqn:Hc.
    + by intros [= <- <-].
    + destruct (str_split sep s) as [|h' t'] eqn:Hs.
      * intros [= <- <-]. simpl. unfold differs. by rewrite Hc.
      * intros [= <- <-]. simpl. unfold differs at 1. rewrite Hc. simpl.
        by eapply IH.
Qed.

Lemma str_split_nonempty sep s : str_split sep s <> [].
Proof.
  destruct s as [|c s]; simpl; [done|].
  destruct (Ascii.eqb c sep); [done|]. by destruct (str_split sep s).
Qed.

Lemma get_ip_total raw :
  exists ip, get_ip_from_raw_address raw = Ok ip /\
             get_ip_from_raw_address ip = Ok ip.
Proof.
  unfold get_ip_from_raw_address at 1. unfold str_rsplit.
  destruct (str_split "/" raw) as [|h t] eqn:Hs.
  - by destruct (str_split_nonempty "/" raw).
  - exists h. split; [done|]. apply get_ip_free. by eapply str_split_head_free.
Qed.

Lemma split_address_ip raw ip :
  get_ip_from_raw_address raw = Ok ip -> split_address ip = split_address raw.
Proof.
  intros Hip. destruct (get_ip_total raw) as (ip' & H1 & H2).
  rewrite Hip in H1. injection H1 as <-.
  unfold split_address. by rewrite H2, Hip.
Qed.

(** ** List subscripts *)

Lemma py_index_nonneg {A} (xs : list A) (i : Z) : 0 <= i -> py_index xs i = i.
Proof. intros Hi. unfold py_index. by destruct (Z.ltb_spec i 0); [lia|]. Qed.

Lemma py_getitem_lookup {A} (xs : list A) (i : Z) (x : A) :
  0 <= i -> xs !! Z.to_nat i = Some x -> py_getitem xs i = Ok x.
Proof.
  intros Hi Hx. unfold py_getitem. rewrite py_index_nonneg by done.
  cbv zeta. destruct (Z.ltb_spec i 0); [lia|]. by rewrite Hx.
Qed.

Lemma py_getitem_beyond {A} (xs : list A) (i : Z) :
  Z.of_nat (length xs) <= i -> py_getitem xs i = Raise IndexError.
Proof.
  intros Hi. unfold py_getitem. rewrite py_index_nonneg by lia.
  cbv zeta. destruct (Z.ltb_spec i 0); [lia|].
  rewrite (lookup_ge_None_2 xs (Z.to_nat i)) by lia. done.
Qed.

Lemma py_setitem_insert {A} (xs : list A) (i : Z) (x : A) :
  0 <= i < Z.of_nat (length xs) ->
  py_setitem xs i x = Ok (<[Z.to_nat i := x]> xs).
Proof.
  intros Hi. unfold py_setitem. rewrite py_index_nonneg by lia.
  cbv zeta. destruct (Z.ltb_spec i 0); [lia|].
  destruct (lookup_lt_is_Some_2 xs (Z.to_nat i)) as [y Hy]; [lia|].
  by rewrite Hy.
Qed.

Lemma range_succ (k : nat) :
  range (Z.of_nat (S k)) = range (Z.of_nat k) ++ [Z.of_nat k].
Proof.
  unfold range. rewrite !Nat2Z.id, seq_S, map_app. done.
Qed.

Lemma range_nonpos (n : Z) : n <= 0 -> range n = [].
Proof.
  intros Hn. unfold range. by replace (Z.to_nat n) with 0%nat by lia.
Qed.

Lemma range_beyond (k : nat) (n : Z) :
  Z.of_nat k < n ->
  exists rest, range n = range (Z.of_nat k) ++ Z.of_nat k :: rest.
Proof.
  intros Hn. unfold range.
  replace (Z.to_nat n) with (k + S (Z.to_nat n - S k))%nat by lia.
  rewrite seq_app, map_app, Nat2Z.id. simpl. eauto.
Qed.

(** ** Bytes and bits *)

Lemma is_byte_land n : is_byte n <-> Z.land n 255 = n.
Proof.
  change 255 with (Z.ones 8). rewrite Z.land_ones by lia.
  unfold is_byte. split.
  - intros H. apply Z.mod_small. lia.
  - intros H. pose proof (Z.mod_pos_bound n (2 ^ 8)). lia.
Qed.

Lemma is_byte_land_mask a m : is_byte m -> is_byte (Z.land a m).
Proof.
  rewrite !is_byte_land. intros Hm.
  by rewrite <- Z.land_assoc, Hm.
Qed.

Lemma is_byte_lor a b : is_byte a -> is_byte b -> is_byte (Z.lor a b).
Proof.
  rewrite !is_byte_land. intros Ha Hb.
  by rewrite Z.land_lor_distr_l, Ha, Hb.
Qed.

Lemma is_byte_lxor a b : is_byte a -> is_byte b -> is_byte (Z.lxor a b).
Proof.
  rewrite !is_byte_land. intros Ha Hb.
  assert (Z.land (Z.lxor a b) 255 = Z.lxor (Z.land a 255) (Z.land b 255)) as ->.
  { apply Z.bits_inj'. intros t _.
    rewrite Z.lxor_spec, !Z.land_spec, Z.lxor_spec.
    by destruct (Z.testbit a t), (Z.testbit b t), (Z.testbit 255 t). }
  by rewrite Ha, Hb.
Qed.

Lemma is_byte_pow2 b : 0 <= b <= 7 -> is_byte (2 ^ b).
Proof.
  intros Hb. unfold is_byte.
  pose proof (Z.pow_le_mono_r 2 b 7). pose proof (Z.pow_pos_nonneg 2 b).
  change (2 ^ 7) with 128 in *. lia.
Qed.

(** Adding [1 << b] to a number whose bit [b] is clear sets that bit. *)
Lemma add_shiftl_lor old b :
  0 <= b -> Z.testbit old b = false ->
  old + Z.shiftl 1 b = Z.lor old (2 ^ b).
Proof.
  intros Hb Hclear. rewrite Z.shiftl_1_l.
  assert (Z.land old (2 ^ b) = 0) as Hdisj.
  { apply Z.bits_inj'. intros t Ht.
    rewrite Z.land_spec, Z.bits_0, Z.pow2_bits_eqb by lia.
    destruct (Z.eqb_spec b t) as [<-|]; [by rewrite Hclear | apply andb_false_r]. }
  by rewrite Z.add_nocarry_lxor, Z.lxor_lor.
Qed.

Lemma address_bit_lookup (bytes : list Z) (i : Z) :
  address_bit bytes i =
    Z.testbit (default 0 (bytes !! Z.to_nat (i / 8))) (7 - i mod 8).
Proof. unfold address_bit. by rewrite nth_lookup. Qed.

(** ** The mask loop *)

Ltac divmod := Z.div_mod_to_equations; lia.

(** One turn of the loop sets bit [k] and leaves the others alone. *)
Lemma mask_step (mask : list Z) (k : Z) :
  byte_address mask -> 0 <= k < 32 ->
  (forall i, 0 <= i < 32 -> address_bit mask i = (i <? k)) ->
  exists mask',
    mask_body mask k = Ok mask' /\ byte_address mask' /\
    (forall i, 0 <= i < 32 -> address_bit mask' i = (i <? k + 1)).
Proof.
  intros [Hlen Hbytes] Hk Hbits.
  destruct (lookup_lt_is_Some_2 mask (Z.to_nat (k / 8))) as [old Hold];
    [divmod|].
  assert (is_byte old) as Hbyte.
  { eapply Forall_lookup_1; eauto. }
  assert (Z.testbit old (7 - k mod 8) = false) as Hclear.
  { specialize (Hbits k Hk). rewrite address_bit_lookup, Hold in Hbits.
    simpl in Hbits. rewrite Hbits. lia. }
  exists (<[Z.to_nat (k / 8) := Z.lor old (2 ^ (7 - k mod 8))]> mask).
  split; [|split; [split|]].
  - cbv beta. rewrite (py_getitem_lookup _ _ old) by (divmod || done).
    simpl. rewrite py_setitem_insert by divmod.
    by rewrite add_shiftl_lor by (divmod || done).
  - by rewrite length_insert.
  - apply Forall_insert; [done|].
    apply is_byte_lor; [done|]. apply is_byte_pow2. divmod.
  - intros i Hi. rewrite address_bit_lookup.
    destruct (decide (Z.to_nat (i / 8) = Z.to_nat (k / 8))) as [Heq|Hne].
    + rewrite Heq, list_lookup_insert_eq by divmod. simpl.
      rewrite Z.lor_spec, Z.pow2_bits_eqb by divmod.
      specialize (Hbits i Hi). rewrite address_bit_lookup, Heq, Hold in Hbits.
      simpl in Hbits. rewrite Hbits.
      destruct (Z.ltb_spec i k), (Z.ltb_spec i (k + 1)),
        (Z.eqb_spec (7 - k mod 8) (7 - i mod 8)); simpl; divmod.
    + rewrite list_lookup_insert_ne by done.
      rewrite <- address_bit_lookup, Hbits by done.
      destruct (Z.ltb_spec i k), (Z.ltb_spec i (k + 1)); try lia.
      assert (i = k) as -> by lia. done.
Qed.

(** After [k] turns exactly the first [k] bits are set. *)
Lemma mask_loop_bits (k : nat) :
  (k <= 32)%nat ->
  exists mask,
    for_each mask_body (range (Z.of_nat k)) [0; 0; 0; 0] = Ok mask /\
    byte_address mask /\
    (forall i, 0 <= i < 32 -> address_bit mask i = (i <? Z.of_nat k)).
Proof.
  induction k as [|k IH]; intros Hk.
  - exists [0; 0; 0; 0]. split; [done|]. split.
    + split; [done|]. repeat constructor; unfold is_byte; lia.
    + intros i Hi. unfold address_bit.
      assert (nth (Z.to_nat (i / 8)) [0; 0; 0; 0] 0 = 0) as ->.
      { by destruct (Z.to_nat (i / 8)) as [|[|[|[|[|?]]]]]. }
      rewrite Z.bits_0. symmetry. apply Z.ltb_ge. lia.
  - destruct IH as (mask & Hloop & Hmask & Hbits); [lia|].
    destruct (mask_step mask (Z.of_nat k) Hmask) as (mask' & Hstep & Hmask' & Hbits');
      [lia | done |].
    exists mask'. rewrite range_succ, for_each_app, Hloop. simpl.
    split; [by rewrite Hstep|]. split; [done|].
    intros i Hi. rewrite Hbits' by done.
    destruct (Z.ltb_spec i (Z.of_nat k + 1)), (Z.ltb_spec i (Z.of_nat (S k))); lia.
Qed.

(** The network mask in terms of the prefix length of the raw address. *)
Lemma get_network_mask_loop raw :
  get_network_mask raw =
    (raw_prefix_length raw ≫= fun num_bits =>
       for_each mask_body (range num_bits) [0; 0; 0; 0]).
Proof.
  unfold get_network_mask, raw_prefix_length.
  by destruct (py_getitem (str_rsplit "/" raw) 1) as [field|e].
Qed.

Lemma network_mask_bits raw p :
  raw_prefix_length raw = Ok p -> 0 <= p <= 32 ->
  exists mask,
    get_network_mask raw = Ok mask /\ byte_address mask /\
    (forall i, 0 <= i < 32 -> address_bit mask i = (i <? p)).
Proof.
  intros Hp Hrange. rewrite get_network_mask_loop, Hp. simpl.
  destruct (mask_loop_bits (Z.to_nat p)) as (mask & Hloop & Hmask & Hbits); [lia|].
  rewrite Z2Nat.id in * by lia. eauto.
Qed.

Lemma network_mask_beyond raw p :
  raw_prefix_length raw = Ok p -> 32 < p ->
  get_network_mask raw = Raise IndexError.
Proof.
  intros Hp Hrange. rewrite get_network_mask_loop, Hp. simpl.
  destruct (mask_loop_bits 32) as (mask & Hloop & [Hlen _] & _); [lia|].
  destruct (range_beyond 32 p) as [rest ->]; [lia|].
  rewrite for_each_app, Hloop. simpl.
  rewrite py_getitem_beyond; [done|]. rewrite Hlen. done.
Qed.

Lemma network_mask_negative raw p :
  raw_prefix_length raw = Ok p -> p < 0 ->
  get_network_mask raw = Ok [0; 0; 0; 0].
Proof.
  intros Hp Hrange. rewrite get_network_mask_loop, Hp. simpl.
  by rewrite range_nonpos by lia.
Qed.

(** ** Addresses as 32-bit numbers *)

Lemma four_bytes (bytes : list Z) :
  length bytes = 4%nat -> exists x0 x1 x2 x3, bytes = [x0; x1; x2; x3].
Proof.
  destruct bytes as [|x0 [|x1 [|x2 [|x3 [|? ?]]]]]; try done. eauto.
Qed.

Lemma testbit_255 t : 0 <= t < 8 -> Z.testbit 255 t = true.
Proof. intros Ht. change 255 with (Z.ones 8). apply Z.ones_spec_low. lia. Qed.

(** Appending a byte shifts the bits up by 8 and adds those of the byte. *)
Lemma testbit_append_byte x b t :
  is_byte b -> 0 <= t ->
  Z.testbit (x * 256 + b) t =
    if t <? 8 then Z.testbit b t else Z.testbit x (t - 8).
Proof.
  intros Hb Ht. unfold is_byte in Hb. change 256 with (2 ^ 8).
  destruct (Z.ltb_spec t 8).
  - rewrite <- (Z.mod_pow2_bits_low _ 8) by lia.
    rewrite Z.add_comm, Z.mod_add, Z.mod_small by lia. done.
  - replace t with ((t - 8) + 8) at 1 by lia.
    rewrite <- Z.div_pow2_bits by lia.
    rewrite Z.add_comm, Z.div_add, Z.div_small by lia. done.
Qed.

(** Bit [t] of the number, counted from the least significant end, is bit
    [31 - t] of the address. *)
Lemma address_value_bit (bytes : list Z) (t : Z) :
  byte_address bytes -> 0 <= t < 32 ->
  Z.testbit (address_value bytes) t = address_bit bytes (31 - t).
Proof.
  intros [Hlen Hbytes] Ht.
  destruct (four_bytes bytes Hlen) as (x0 & x1 & x2 & x3 & ->).
  apply Forall_cons in Hbytes as [H0 Hbytes].
  apply Forall_cons in Hbytes as [H1 Hbytes].
  apply Forall_cons in Hbytes as [H2 Hbytes].
  apply Forall_cons in Hbytes as [H3 _].
  unfold address_value, address_bit. simpl fold_left.
  assert (0 <= t < 8 \/ 8 <= t < 16 \/ 16 <= t < 24 \/ 24 <= t < 32)
    as [Hc|[Hc|[Hc|Hc]]] by lia;
    rewrite !testbit_append_byte by (done || lia).
  - replace ((31 - t) / 8) with 3 by divmod.
    replace (7 - (31 - t) mod 8) with t by divmod.
    destruct (Z.ltb_spec t 8); [done | lia].
  - replace ((31 - t) / 8) with 2 by divmod.
    replace (7 - (31 - t) mod 8) with (t - 8) by divmod.
    destruct (Z.ltb_spec t 8), (Z.ltb_spec (t - 8) 8); (done || lia).
  - replace ((31 - t) / 8) with 1 by divmod.
    replace (7 - (31 - t) mod 8) with (t - 8 - 8) by divmod.
    destruct (Z.ltb_spec t 8), (Z.ltb_spec (t - 8) 8),
      (Z.ltb_spec (t - 8 - 8) 8); (done || lia).
  - replace ((31 - t) / 8) with 0 by divmod.
    replace (7 - (31 - t) mod 8) with (t - 8 - 8 - 8) by divmod.
    destruct (Z.ltb_spec t 8), (Z.ltb_spec (t - 8) 8),
      (Z.ltb_spec (t - 8 - 8) 8), (Z.ltb_spec (t - 8 - 8 - 8) 8);
      (done || lia).
Qed.

(** When every bit of the address from position [p] on is [v], the lowest
    [32 - p] bits of its number are all [v]. *)
Lemma low_bits_clear (bytes : list Z) (p : Z) :
  byte_address bytes -> 0 <= p <= 32 ->
  (forall i, p <= i < 32 -> address_bit bytes i = false) ->
  address_value bytes mod 2 ^ (32 - p) = 0.
Proof.
  intros Hbytes Hp Hbits. apply Z.bits_inj'. intros t Ht. rewrite Z.bits_0.
  destruct (Z.ltb_spec t (32 - p)).
  - rewrite Z.mod_pow2_bits_low, address_value_bit by (done || lia).
    apply Hbits. lia.
  - apply Z.mod_pow2_bits_high. lia.
Qed.

Lemma low_bits_set (bytes : list Z) (p : Z) :
  byte_address bytes -> 0 <= p <= 32 ->
  (forall i, p <= i < 32 -> address_bit bytes i = true) ->
  address_value bytes mod 2 ^ (32 - p) = 2 ^ (32 - p) - 1.
Proof.
  intros Hbytes Hp Hbits.
  replace (2 ^ (32 - p) - 1) with (Z.ones (32 - p))
    by (rewrite Z.ones_equiv; lia).
  apply Z.bits_inj'. intros t Ht.
  destruct (Z.ltb_spec t (32 - p)).
  - rewrite Z.mod_pow2_bits_low, address_value_bit by (done || lia).
    rewrite Z.ones_spec_low by lia. apply Hbits. lia.
  - rewrite Z.mod_pow2_bits_high, Z.ones_spec_high by lia. done.
Qed.

(** ** Network, broadcast and usable addresses *)

Lemma network_address_bytes raw a b c d m0 m1 m2 m3 :
  split_address raw = Ok [a; b; c; d] ->
  get_network_mask raw = Ok [m0; m1; m2; m3] ->
  get_network_address_from_raw_address raw =
    Ok (join_address [Z.land a m0; Z.land b m1; Z.land c m2; Z.land d m3]).
Proof.
  intros Hip Hmask. unfold get_network_address_from_raw_address.
  rewrite Hip. simpl. rewrite Hmask. reflexivity.
Qed.

Lemma broadcast_address_bytes raw a b c d m0 m1 m2 m3 :
  split_address raw = Ok [a; b; c; d] ->
  get_network_mask raw = Ok [m0; m1; m2; m3] ->
  get_broadcast_address_from_raw_address raw =
    Ok (join_address [Z.lor a (Z.lxor m0 FULL_BYTE); Z.lor b (Z.lxor m1 FULL_BYTE);
                      Z.lor c (Z.lxor m2 FULL_BYTE); Z.lor d (Z.lxor m3 FULL_BYTE)]).
Proof.
  intros Hip Hmask. unfold get_broadcast_address_from_raw_address.
  destruct (get_ip_total raw) as (ip & Hraw & _). rewrite Hraw. simpl.
  rewrite (split_address_ip raw ip Hraw), Hip. simpl.
  rewrite Hmask. reflexivity.
Qed.

Lemma first_usable_bytes raw n0 n1 n2 n3 :
  get_network_address_from_raw_address raw = Ok (join_address [n0; n1; n2; n3]) ->
  get_first_usable_ip_address_from_raw_address raw =
    Ok (join_address [n0; n1; n2; n3 + 1]).
Proof.
  intros Hnet. unfold get_first_usable_ip_address_from_raw_address.
  rewrite Hnet. simpl. rewrite split_join_address by done. reflexivity.
Qed.

Lemma penultimate_usable_bytes raw b0 b1 b2 b3 :
  get_broadcast_address_from_raw_address raw = Ok (join_address [b0; b1; b2; b3]) ->
  get_penultimate_usable_ip_address_from_raw_address raw =
    Ok (join_address [b0; b1; b2; b3 - 2]).
Proof.
  intros Hbc. unfold get_penultimate_usable_ip_address_from_raw_address.
  rewrite Hbc. simpl. rewrite split_join_address by done.
  transitivity
    (Ok (join_address
           [Z.land (Z.lor b0 b0) b0; Z.land (Z.lor b1 b1) b1;
            Z.land (Z.lor b2 b2) b2;
            Z.land (Z.lor (b3 - 1) (b3 - 1)) (b3 - 1) - 1])); [reflexivity|].
  rewrite !Z.lor_diag, !Z.land_diag.
  by replace (b3 - 1 - 1) with (b3 - 2) by lia.
Qed.

Lemma address_bit_land a b c d m0 m1 m2 m3 i :
  address_bit [Z.land a m0; Z.land b m1; Z.land c m2; Z.land d m3] i =
    address_bit [a; b; c; d] i && address_bit [m0; m1; m2; m3] i.
Proof.
  unfold address_bit.
  destruct (Z.to_nat (i / 8)) as [|[|[|[|[|?]]]]]; simpl;
    by rewrite ?Z.land_spec, ?Z.bits_0.
Qed.

Lemma address_bit_lor_inverted a b c d m0 m1 m2 m3 i :
  0 <= i < 32 ->
  address_bit [Z.lor a (Z.lxor m0 FULL_BYTE); Z.lor b (Z.lxor m1 FULL_BYTE);
               Z.lor c (Z.lxor m2 FULL_BYTE); Z.lor d (Z.lxor m3 FULL_BYTE)] i =
    address_bit [a; b; c; d] i || negb (address_bit [m0; m1; m2; m3] i).
Proof.
  intros Hi. unfold address_bit, FULL_BYTE.
  assert (Z.testbit 255 (7 - i mod 8) = true) as H255
    by (apply testbit_255; divmod).
  destruct (Z.to_nat (i / 8)) as [|[|[|[|?]]]] eqn:Hidx; simpl;
    rewrite ?Z.lor_spec, ?Z.lxor_spec, ?H255, ?xorb_true_r; try done.
  divmod.
Qed.

Lemma byte_address_land a b c d m0 m1 m2 m3 :
  byte_address [m0; m1; m2; m3] ->
  byte_address [Z.land a m0; Z.land b m1; Z.land c m2; Z.land d m3].
Proof.
  intros [_ Hm]. split; [done|].
  apply Forall_cons in Hm as [H0 Hm]. apply Forall_cons in Hm as [H1 Hm].
  apply Forall_cons in Hm as [H2 Hm]. apply Forall_cons in Hm as [H3 _].
  repeat constructor; by apply is_byte_land_mask.
Qed.

Lemma byte_address_lor_inverted a b c d m0 m1 m2 m3 :
  byte_address [a; b; c; d] -> byte_address [m0; m1; m2; m3] ->
  byte_address
    [Z.lor a (Z.lxor m0 FULL_BYTE); Z.lor b (Z.lxor m1 FULL_BYTE);
     Z.lor c (Z.lxor m2 FULL_BYTE); Z.lor d (Z.lxor m3 FULL_BYTE)].
Proof.
  intros [_ Ha] [_ Hm]. split; [done|].
  apply Forall_cons in Ha as [A0 Ha]. apply Forall_cons in Ha as [A1 Ha].
  apply Forall_cons in Ha as [A2 Ha]. apply Forall_cons in Ha as [A3 _].
  apply Forall_cons in Hm as [H0 Hm]. apply Forall_cons in Hm as [H1 Hm].
  apply Forall_cons in Hm as [H2 Hm]. apply Forall_cons in Hm as [H3 _].
  assert (is_byte FULL_BYTE) by (unfold is_byte, FULL_BYTE; lia).
  repeat constructor; apply is_byte_lor; try done; by apply is_byte_lxor.
Qed.

Lemma invert_address_map (bytes : list Z) :
  invert_address bytes = map (fun byte => Z.lxor byte FULL_BYTE) bytes.
Proof.
  unfold invert_address.
  enough (forall inverted,
             fold_left (fun inverted byte => inverted ++ [Z.lxor byte FULL_BYTE])
                       bytes inverted
             = inverted ++ map (fun byte => Z.lxor byte FULL_BYTE) bytes)
    as H by apply (H []).
  induction bytes as [|b bytes IH]; intros inverted; simpl.
  - by rewrite app_nil_r.
  - by rewrite IH, <- app_assoc.
Qed.

Lemma network_mask_four raw p :
  raw_prefix_length raw = Ok p -> p <= 32 ->
  exists m0 m1 m2 m3,
    get_network_mask raw = Ok [m0; m1; m2; m3] /\
    byte_address [m0; m1; m2; m3] /\
    (0 <= p ->
     forall i, 0 <= i < 32 -> address_bit [m0; m1; m2; m3] i = (i <? p)).
Proof.
  intros Hp Hle. destruct (Z.lt_ge_cases p 0) as [Hneg|Hpos].
  - exists 0, 0, 0, 0. rewrite (network_mask_negative raw p) by done.
    split; [done|]. split; [|lia].
    split; [done|]. repeat constructor; unfold is_byte; lia.
  - destruct (network_mask_bits raw p) as (mask & Hmask & Hbytes & Hbits);
      [done | lia |].
    destruct (four_bytes mask (proj1 Hbytes)) as (m0 & m1 & m2 & m3 & ->).
    exists m0, m1, m2, m3. eauto.
Qed.

(** The four derived addresses of a raw address that parses to four octets
    and a prefix length of at most 32. *)
Lemma derived_addresses raw a b c d p :
  split_address raw = Ok [a; b; c; d] ->
  raw_prefix_length raw = Ok p -> p <= 32 ->
  exists m0 m1 m2 m3,
    get_network_mask raw = Ok [m0; m1; m2; m3] /\
    byte_address [m0; m1; m2; m3] /\
    (0 <= p ->
     forall i, 0 <= i < 32 -> address_bit [m0; m1; m2; m3] i = (i <? p)) /\
    let net := [Z.land a m0; Z.land b m1; Z.land c m2; Z.land d m3] in
    let bc := [Z.lor a (Z.lxor m0 FULL_BYTE); Z.lor b (Z.lxor m1 FULL_BYTE);
               Z.lor c (Z.lxor m2 FULL_BYTE); Z.lor d (Z.lxor m3 FULL_BYTE)] in
    get_network_address_from_raw_address raw = Ok (join_address net) /\
    get_broadcast_address_from_raw_address raw = Ok (join_address bc) /\
    get_first_usable_ip_address_from_raw_address raw =
      Ok (join_address [Z.land a m0; Z.land b m1; Z.land c m2; Z.land d m3 + 1]) /\
    get_penultimate_usable_ip_address_from_raw_address raw =
      Ok (join_address
            [Z.lor a (Z.lxor m0 FULL_BYTE); Z.lor b (Z.lxor m1 FULL_BYTE);
             Z.lor c (Z.lxor m2 FULL_BYTE); Z.lor d (Z.lxor m3 FULL_BYTE) - 2]).
Proof.
  intros Hip Hp Hle.
  destruct (network_mask_four raw p Hp Hle) as (m0 & m1 & m2 & m3 & Hmask & Hbytes & Hbits).
  exists m0, m1, m2, m3. repeat (split; [done|]). cbv zeta.
  pose proof (network_address_bytes _ _ _ _ _ _ _ _ _ Hip Hmask) as Hnet.
  pose proof (broadcast_address_bytes _ _ _ _ _ _ _ _ _ Hip Hmask) as Hbc.
  repeat split; [done | done | |].
  - by apply first_usable_bytes.
  - by apply penultimate_usable_bytes.
Qed.

Lemma get_info_first_field raw ip :
  get_ip_from_raw_address raw = Ok ip ->
  head (get_info raw).1 = Some ("IP address:", PyText ip).
Proof.
  intros Hip. unfold get_info. rewrite Hip.
  match goal with
  | |- context [print_all (_ :: ?rest)] => generalize rest
  end.
  intros rest. simpl. by destruct (print_all rest).
Qed.

(** * The claims *)

(** C1, counterexample: for the raw address '215.017.125.177/28' the
    'IP address' value is the text in front of the slash as it was typed,
    '215.017.125.177', not '215.17.125.177'. *)
Lemma ip_address_field_keeps_leading_zeros :
  well_formed "215" "017" "125" "177" "28" /\
  cidr "215" "017" "125" "177" "28" = "215.017.125.177/28" /\
  get_ip_from_raw_address "215.017.125.177/28" = Ok "215.017.125.177" /\
  head (get_info "215.017.125.177/28").1 =
    Some ("IP address:", PyText "215.017.125.177") /\
  "215.017.125.177" <> "215.17.125.177".
Proof. repeat split; done. Qed.

(** C1 (amended): for every well-formed raw address 'A.B.C.D/P',
    [split_address] succeeds with the values of the four octets, and
    [join_address] of these bytes is the dotted form in which every octet
    is canonical, that is, printed as its decimal value without leading
    zeros.  The 'IP address' value of [get_info] is not normalised: it is
    the text 'A.B.C.D' as it stands in the raw address. *)
Theorem split_join_canonical A B C D P :
  well_formed A B C D P ->
  (exists bytes,
      split_address (cidr A B C D P) = Ok bytes /\
      bytes = [decimal_value A; decimal_value B; decimal_value C; decimal_value D] /\
      join_address bytes =
        dotted (canonical A) (canonical B) (canonical C) (canonical D)) /\
  get_ip_from_raw_address (cidr A B C D P) = Ok (dotted A B C D) /\
  head (get_info (cidr A B C D P)).1 = Some ("IP address:", PyText (dotted A B C D)).
Proof.
  intros Hwf. destruct (parse_cidr A B C D P Hwf) as (Hip & Hsplit & _).
  destruct Hwf as (HA & HB & HC & HD & _).
  split; [|split; [done | by apply get_info_first_field]].
  eexists. split; [exact Hsplit|]. split; [done|].
  unfold join_address, to_str, PyStr_int. simpl map.
  by rewrite !py_str_decimal.
Qed.

Lemma split_join_canonical_witness :
  well_formed "215" "017" "125" "177" "28" /\
  (exists bytes,
      split_address "215.017.125.177/28" = Ok bytes /\
      bytes = [215; 17; 125; 177] /\
      join_address bytes = "215.17.125.177") /\
  get_ip_from_raw_address "215.017.125.177/28" = Ok "215.017.125.177" /\
  head (get_info "215.017.125.177/28").1 =
    Some ("IP address:", PyText "215.017.125.177").
Proof.
  assert (well_formed "215" "017" "125" "177" "28") as Hwf by (repeat split; done).
  split; [exact Hwf|].
  exact (split_join_canonical "215" "017" "125" "177" "28" Hwf).
Defined.

(** C2, counterexample: '1.2.3.255/32' is well formed with octets in
    [0,255] and prefix length 32, and its first usable address is
    '1.2.3.256', whose last element is not in [0,255]. *)
Lemma first_usable_leaves_byte_range :
  well_formed "1" "2" "3" "255" "32" /\
  cidr "1" "2" "3" "255" "32" = "1.2.3.255/32" /\
  split_address "1.2.3.255/32" = Ok [1; 2; 3; 255] /\
  raw_prefix_length "1.2.3.255/32" = Ok 32 /\
  get_first_usable_ip_address_from_raw_address "1.2.3.255/32" = Ok "1.2.3.256" /\
  split_address "1.2.3.256" = Ok [1; 2; 3; 256] /\
  byte_address_text "1.2.3.256" = false /\
  ~ byte_address [1; 2; 3; 256].
Proof.
  repeat split; try done.
  intros [_ H]. rewrite !Forall_cons in H. unfold is_byte in H. lia.
Qed.

(** C2 (amended): for every well-formed raw address whose four octets are
    in [0,255] and whose prefix length is in [0,32], the network mask, the
    network address and the broadcast address are sequences of exactly 4
    integers, each in [0,255].  The first usable and the penultimate
    usable address are sequences of exactly 4 integers whose first three
    are those of the network and of the broadcast address, hence in
    [0,255], and whose last is in [1,256] and in [-2,253]. *)
Theorem derived_byte_addresses A B C D P :
  well_formed A B C D P ->
  is_byte (decimal_value A) -> is_byte (decimal_value B) ->
  is_byte (decimal_value C) -> is_byte (decimal_value D) ->
  0 <= decimal_value P <= 32 ->
  exists mask net bc first_last penultimate_last,
    get_network_mask (cidr A B C D P) = Ok mask /\ byte_address mask /\
    get_network_address_from_raw_address (cidr A B C D P) =
      Ok (join_address net) /\ byte_address net /\
    get_broadcast_address_from_raw_address (cidr A B C D P) =
      Ok (join_address bc) /\ byte_address bc /\
    get_first_usable_ip_address_from_raw_address (cidr A B C D P) =
      Ok (join_address (take 3 net ++ [first_last])) /\
    1 <= first_last <= 256 /\
    get_penultimate_usable_ip_address_from_raw_address (cidr A B C D P) =
      Ok (join_address (take 3 bc ++ [penultimate_last])) /\
    -2 <= penultimate_last <= 253.
Proof.
  intros Hwf HA HB HC HD HP.
  destruct (parse_cidr A B C D P Hwf) as (_ & Hsplit & Hprefix).
  destruct (derived_addresses _ _ _ _ _ _ Hsplit Hprefix)
    as (m0 & m1 & m2 & m3 & Hmask & Hbytes & _ & Hnet & Hbc & Hfirst & Hpen);
    [lia|].
  assert (byte_address
            [decimal_value A; decimal_value B; decimal_value C; decimal_value D])
    as Hoctets by (split; [done | by rewrite !Forall_cons, Forall_nil]).
  pose proof (byte_address_land (decimal_value A) (decimal_value B)
                (decimal_value C) (decimal_value D) _ _ _ _ Hbytes) as Hnb.
  pose proof (byte_address_lor_inverted _ _ _ _ _ _ _ _ Hoctets Hbytes) as Hbb.
  eexists _, _, _, _, _.
  split; [exact Hmask|]. split; [exact Hbytes|].
  split; [exact Hnet|]. split; [exact Hnb|].
  split; [exact Hbc|]. split; [exact Hbb|].
  split; [exact Hfirst|]. split.
  { destruct Hnb as [_ Hnb]. rewrite !Forall_cons in Hnb. unfold is_byte in Hnb. lia. }
  split; [exact Hpen|].
  destruct Hbb as [_ Hbb]. rewrite !Forall_cons in Hbb. unfold is_byte in Hbb. lia.
Qed.

Lemma derived_byte_addresses_witness :
  well_formed "1" "2" "3" "255" "32" /\
  exists mask net bc first_last penultimate_last,
    get_network_mask "1.2.3.255/32" = Ok mask /\ byte_address mask /\
    get_network_address_from_raw_address "1.2.3.255/32" =
      Ok (join_address net) /\ byte_address net /\
    get_broadcast_address_from_raw_address "1.2.3.255/32" =
      Ok (join_address bc) /\ byte_address bc /\
    get_first_usable_ip_address_from_raw_address "1.2.3.255/32" =
      Ok (join_address (take 3 net ++ [first_last])) /\
    1 <= first_last <= 256 /\
    get_penultimate_usable_ip_address_from_raw_address "1.2.3.255/32" =
      Ok (join_address (take 3 bc ++ [penultimate_last])) /\
    -2 <= penultimate_last <= 253.
Proof.
  assert (well_formed "1" "2" "3" "255" "32") as Hwf by (repeat split; done).
  split; [exact Hwf|].
  apply (derived_byte_addresses "1" "2" "3" "255" "32" Hwf);
    vm_compute; split; discriminate.
Defined.

(** C3, counterexample: the prefix length -1 is numeric and outside
    [0,32], and the mask computation neither faults nor sets any bit: it
    returns the all-zero mask, the mask of prefix length 0. *)
Lemma negative_prefix_gives_zero_mask :
  raw_prefix_length "0.0.0.0/-1" = Ok (-1) /\
  get_network_mask "0.0.0.0/-1" = Ok [0; 0; 0; 0] /\
  get_network_mask "0.0.0.0/-1" = get_network_mask "0.0.0.0/0" /\
  (forall e, get_network_mask "0.0.0.0/-1" <> Raise e) /\
  byte_address [0; 0; 0; 0] /\
  (forall i, address_bit [0; 0; 0; 0] i = false).
Proof.
  repeat split; try done.
  - repeat constructor; unfold is_byte; lia.
  - intros i. unfold address_bit.
    destruct (Z.to_nat (i / 8)) as [|[|[|[|[|?]]]]]; simpl; apply Z.bits_0.
Qed.

(** C3 (amended): for every numeric prefix length greater than 32 the
    mask computation ends in a runtime fault, [IndexError], raised when
    the loop reaches bit 32; for every negative prefix length it returns
    the all-zero mask without a fault.  In neither case is a defined error
    value returned, and no bit outside the 4 bytes is ever written. *)
Theorem mask_of_prefix_out_of_range raw p :
  raw_prefix_length raw = Ok p ->
  (32 < p -> get_network_mask raw = Raise IndexError) /\
  (p < 0 -> get_network_mask raw = Ok [0; 0; 0; 0]).
Proof.
  intros Hp. split; intros Hrange.
  - by apply (network_mask_beyond raw p).
  - by apply (network_mask_negative raw p).
Qed.

Lemma mask_of_prefix_out_of_range_witness :
  get_network_mask "0.0.0.0/33" = Raise IndexError /\
  get_network_mask "10.1.2.3/-7" = Ok [0; 0; 0; 0].
Proof.
  split.
  - apply (mask_of_prefix_out_of_range "0.0.0.0/33" 33); [reflexivity | lia].
  - apply (mask_of_prefix_out_of_range "10.1.2.3/-7" (-7)); [reflexivity | lia].
Defined.

(** C4: for every prefix length p in [0,32] the network mask is a 4-byte
    value in which bit i, counted from the most significant bit of the
    first byte, is 1 iff i < p; p = 0 gives the all-zero mask, p = 32 gives
    255.255.255.255 and p = 9 gives [255,128,0,0]. *)
Theorem network_mask_correct :
  (forall raw p,
      raw_prefix_length raw = Ok p -> 0 <= p <= 32 ->
      exists mask,
        get_network_mask raw = Ok mask /\ byte_address mask /\
        (forall i, 0 <= i < 32 -> address_bit mask i = (i <? p))) /\
  (forall raw, raw_prefix_length raw = Ok 0 ->
               get_network_mask raw = Ok [0; 0; 0; 0]) /\
  (forall raw, raw_prefix_length raw = Ok 32 ->
               get_network_mask raw = Ok [255; 255; 255; 255]) /\
  (forall raw, raw_prefix_length raw = Ok 9 ->
               get_network_mask raw = Ok [255; 128; 0; 0]) /\
  get_network_mask "0.0.0.0/9" = Ok [255; 128; 0; 0].
Proof.
  split; [exact network_mask_bits|].
  repeat split; try (intros raw Hp; rewrite get_network_mask_loop, Hp);
    reflexivity.
Qed.

Lemma network_mask_correct_witness :
  exists mask,
    get_network_mask "91.124.230.205/30" = Ok mask /\ byte_address mask /\
    (forall i, 0 <= i < 32 -> address_bit mask i = (i <? 30)).
Proof.
  apply (proj1 network_mask_correct "91.124.230.205/30" 30);
    [reflexivity | lia].
Defined.

(** C5: for every well-formed raw address (prefix length at most 32) the
    first usable address is the network address with its last byte
    incremented by 1 and the other bytes unchanged, and the penultimate
    usable address is the broadcast address with its last byte
    decremented by 2 and the other bytes unchanged; nothing is carried
    into or borrowed from the preceding bytes. *)
Theorem usable_addresses_touch_last_byte A B C D P :
  well_formed A B C D P -> decimal_value P <= 32 ->
  exists n0 n1 n2 n3 b0 b1 b2 b3,
    get_network_address_from_raw_address (cidr A B C D P) =
      Ok (join_address [n0; n1; n2; n3]) /\
    get_first_usable_ip_address_from_raw_address (cidr A B C D P) =
      Ok (join_address [n0; n1; n2; n3 + 1]) /\
    get_broadcast_address_from_raw_address (cidr A B C D P) =
      Ok (join_address [b0; b1; b2; b3]) /\
    get_penultimate_usable_ip_address_from_raw_address (cidr A B C D P) =
      Ok (join_address [b0; b1; b2; b3 - 2]).
Proof.
  intros Hwf HP.
  destruct (parse_cidr A B C D P Hwf) as (_ & Hsplit & Hprefix).
  destruct (derived_addresses _ _ _ _ _ _ Hsplit Hprefix HP)
    as (m0 & m1 & m2 & m3 & _ & _ & _ & Hnet & Hbc & Hfirst & Hpen).
  eexists _, _, _, _, _, _, _, _. eauto.
Qed.

Lemma usable_addresses_touch_last_byte_witness :
  well_formed "1" "2" "3" "255" "32" /\
  exists n0 n1 n2 n3 b0 b1 b2 b3,
    get_network_address_from_raw_address "1.2.3.255/32" =
      Ok (join_address [n0; n1; n2; n3]) /\
    get_first_usable_ip_address_from_raw_address "1.2.3.255/32" =
      Ok (join_address [n0; n1; n2; n3 + 1]) /\
    get_broadcast_address_from_raw_address "1.2.3.255/32" =
      Ok (join_address [b0; b1; b2; b3]) /\
    get_penultimate_usable_ip_address_from_raw_address "1.2.3.255/32" =
      Ok (join_address [b0; b1; b2; b3 - 2]).
Proof.
  assert (well_formed "1" "2" "3" "255" "32") as Hwf by (repeat split; done).
  split; [exact Hwf|].
  apply (usable_addresses_touch_last_byte "1" "2" "3" "255" "32" Hwf).
  vm_compute. discriminate.
Defined.

(** C6, counterexample: the number of usable hosts is 0 at prefix length
    31 and -1 at prefix length 32, not -1 and 0. *)
Lemma usable_hosts_edge_values :
  raw_prefix_length "91.124.230.205/31" = Ok 31 /\
  get_number_of_usable_hosts_from_raw_address "91.124.230.205/31" = Ok (PyInt 0) /\
  get_number_of_usable_hosts_from_raw_address "91.124.230.205/31" <> Ok (PyInt (-1)) /\
  raw_prefix_length "91.124.230.205/32" = Ok 32 /\
  get_number_of_usable_hosts_from_raw_address "91.124.230.205/32" = Ok (PyInt (-1)) /\
  get_number_of_usable_hosts_from_raw_address "91.124.230.205/32" <> Ok (PyInt 0).
Proof. repeat split; done. Qed.

(** C6 (amended): for every prefix length p in [0,32] the number of usable
    hosts is exactly the integer 2^(32-p) - 2, with no clamping: 0 at
    p = 31 and -1 at p = 32; it is 16777214 for '91.124.230.205/8'. *)
Theorem usable_hosts_formula :
  (forall raw p,
      raw_prefix_length raw = Ok p -> 0 <= p <= 32 ->
      get_number_of_usable_hosts_from_raw_address raw =
        Ok (PyInt (2 ^ (32 - p) - 2))) /\
  (forall raw, raw_prefix_length raw = Ok 31 ->
               get_number_of_usable_hosts_from_raw_address raw = Ok (PyInt 0)) /\
  (forall raw, raw_prefix_length raw = Ok 32 ->
               get_number_of_usable_hosts_from_raw_address raw = Ok (PyInt (-1))) /\
  get_number_of_usable_hosts_from_raw_address "91.124.230.205/8" =
    Ok (PyInt 16777214).
Proof.
  assert (forall raw p,
             raw_prefix_length raw = Ok p -> 0 <= p <= 32 ->
             get_number_of_usable_hosts_from_raw_address raw =
               Ok (PyInt (2 ^ (32 - p) - 2))) as Hgen.
  { intros raw p Hp Hrange.
    unfold get_number_of_usable_hosts_from_raw_address.
    unfold raw_prefix_length in Hp.
    destruct (py_getitem (str_rsplit "/" raw) 1) as [field|e]; [|done].
    simpl in *. rewrite Hp. simpl. unfold py_pow2_minus2.
    destruct (Z.leb_spec 0 (32 - p)); [done | lia]. }
  split; [exact Hgen|]. split; [|split].
  - intros raw Hp. by rewrite (Hgen raw 31) by (done || lia).
  - intros raw Hp. by rewrite (Hgen raw 32) by (done || lia).
  - reflexivity.
Qed.

Lemma usable_hosts_formula_witness :
  get_number_of_usable_hosts_from_raw_address "91.124.230.205/24" =
    Ok (PyInt (2 ^ (32 - 24) - 2)).
Proof.
  apply (proj1 usable_hosts_formula "91.124.230.205/24" 24);
    [reflexivity | lia].
Defined.

(** C7: the class of an address is decided by its first octet: A for
    [1,126], B for [128,191], C for [192,223], D for [224,239], E for
    [240,247] and Unknown for every other value (0, 127, 248 and above);
    the class of '225.124.230.205/30' is D. *)
Theorem ip_class_by_first_octet :
  (forall raw first rest c,
      split_address raw = Ok (first :: rest) ->
      class_range c first <->
      get_ip_class_from_raw_address raw = Ok (class_text c)) /\
  get_ip_class_from_raw_address "225.124.230.205/30" = Ok (class_text ClassD).
Proof.
  split; [|reflexivity].
  intros raw first rest c Hip. unfold get_ip_class_from_raw_address.
  rewrite Hip. cbn [mbind result_bind]. unfold first_between.
  change (py_getitem (first :: rest) 0) with (Ok first).
  cbn [mbind result_bind].
  repeat match goal with
         | |- context [?x <=? ?y] => destruct (Z.leb_spec x y); cbn [andb]
         end;
    destruct c; simpl; split; intros Hc; (lia || discriminate Hc || done).
Qed.

Lemma ip_class_by_first_octet_witness :
  class_range ClassA 91 <->
  get_ip_class_from_raw_address "91.124.230.205/30" = Ok (class_text ClassA).
Proof.
  apply (proj1 ip_class_by_first_octet "91.124.230.205/30" 91 [124; 230; 205]).
  reflexivity.
Defined.

Lemma pair_list_eq (a b c d : Z) : [a; b] = [c; d] <-> a = c /\ b = d.
Proof. split; [by intros [= -> ->] | by intros [-> ->]]. Qed.

(** C8: the private-address check returns true iff the first octet is 10,
    or the first octet is 172 and the second is in [16,31], or the first
    two octets are 192 and 168; '172.25.255.255/8' is private and
    '172.32.0.0/8' is not. *)
Theorem private_address_check :
  (forall raw first second rest,
      split_address raw = Ok (first :: second :: rest) ->
      exists r,
        check_private_ip_address_from_raw_address raw = Ok r /\
        (r = true <->
         first = 10 \/ (first = 172 /\ 16 <= second <= 31) \/
         (first = 192 /\ second = 168))) /\
  check_private_ip_address_from_raw_address "172.25.255.255/8" = Ok true /\
  check_private_ip_address_from_raw_address "172.32.0.0/8" = Ok false.
Proof.
  split; [|split; reflexivity].
  intros raw first second rest Hip.
  unfold check_private_ip_address_from_raw_address.
  rewrite Hip. cbn [mbind result_bind].
  change (py_getitem (first :: second :: rest) 0) with (Ok first).
  change (py_getitem (first :: second :: rest) 1) with (Ok second).
  cbn [mbind result_bind take].
  destruct (Z.eqb_spec first 172) as [->|H172]; cbn [mbind result_bind];
    eexists; (split; [reflexivity|]);
    rewrite !orb_true_iff, ?andb_true_iff, bool_decide_eq_true,
      ?Z.eqb_eq, ?Z.leb_le, pair_list_eq; lia.
Qed.

Lemma private_address_check_witness :
  exists r,
    check_private_ip_address_from_raw_address "192.168.32.45/8" = Ok r /\
    (r = true <->
     192 = 10 \/ (192 = 172 /\ 16 <= 168 <= 31) \/ (192 = 192 /\ 168 = 168)).
Proof.
  apply (proj1 private_address_check "192.168.32.45/8" 192 168 [32; 45]).
  reflexivity.
Defined.

(** C9: for every prefix length p in [0,32] and every address with octets
    in [0,255], the network address, the bytewise AND of the address with
    the mask of p, has its lowest 32-p bits equal to zero: bits p to 31
    counted from the most significant end are 0, and its 32-bit number is
    a multiple of 2^(32-p). *)
Theorem network_address_low_bits_zero raw a b c d p :
  split_address raw = Ok [a; b; c; d] -> byte_address [a; b; c; d] ->
  raw_prefix_length raw = Ok p -> 0 <= p <= 32 ->
  exists mask net,
    get_network_mask raw = Ok mask /\
    net = zip_with Z.land [a; b; c; d] mask /\
    get_network_address_from_raw_address raw = Ok (join_address net) /\
    (forall i, p <= i < 32 -> address_bit net i = false) /\
    address_value net mod 2 ^ (32 - p) = 0.
Proof.
  intros Hip Hoctets Hp Hrange.
  destruct (derived_addresses _ _ _ _ _ _ Hip Hp)
    as (m0 & m1 & m2 & m3 & Hmask & Hbytes & Hbits & Hnet & _); [lia|].
  cbv zeta in Hnet.
  exists [m0; m1; m2; m3], [Z.land a m0; Z.land b m1; Z.land c m2; Z.land d m3].
  assert (forall i, p <= i < 32 ->
            address_bit [Z.land a m0; Z.land b m1; Z.land c m2; Z.land d m3] i
            = false) as Hlow.
  { intros i Hi. rewrite address_bit_land, Hbits by lia.
    destruct (Z.ltb_spec i p); [lia | apply andb_false_r]. }
  repeat split; try done.
  apply low_bits_clear; [by apply byte_address_land | done | done].
Qed.

Lemma network_address_low_bits_zero_witness :
  exists mask net,
    get_network_mask "91.124.230.205/30" = Ok mask /\
    net = zip_with Z.land [91; 124; 230; 205] mask /\
    get_network_address_from_raw_address "91.124.230.205/30" =
      Ok (join_address net) /\
    (forall i, 30 <= i < 32 -> address_bit net i = false) /\
    address_value net mod 2 ^ (32 - 30) = 0.
Proof.
  apply (network_address_low_bits_zero "91.124.230.205/30" 91 124 230 205 30);
    [reflexivity | | reflexivity | lia].
  split; [reflexivity|]. rewrite !Forall_cons, Forall_nil. unfold is_byte. lia.
Defined.

(** C10: for every prefix length p in [0,32] and every address with octets
    in [0,255], the broadcast address, the bytewise OR of the address with
    the inverted mask of p (each mask byte XOR 0xFF), has its lowest 32-p
    bits all set to one: bits p to 31 counted from the most significant
    end are 1, and its 32-bit number is 2^(32-p) - 1 modulo 2^(32-p). *)
Theorem broadcast_address_low_bits_one raw a b c d p :
  split_address raw = Ok [a; b; c; d] -> byte_address [a; b; c; d] ->
  raw_prefix_length raw = Ok p -> 0 <= p <= 32 ->
  exists mask bc,
    get_network_mask raw = Ok mask /\
    invert_address mask = map (fun byte => Z.lxor byte 255) mask /\
    bc = zip_with Z.lor [a; b; c; d] (invert_address mask) /\
    get_broadcast_address_from_raw_address raw = Ok (join_address bc) /\
    (forall i, p <= i < 32 -> address_bit bc i = true) /\
    address_value bc mod 2 ^ (32 - p) = 2 ^ (32 - p) - 1.
Proof.
  intros Hip Hoctets Hp Hrange.
  destruct (derived_addresses _ _ _ _ _ _ Hip Hp)
    as (m0 & m1 & m2 & m3 & Hmask & Hbytes & Hbits & _ & Hbc & _); [lia|].
  cbv zeta in Hbc.
  exists [m0; m1; m2; m3],
    [Z.lor a (Z.lxor m0 FULL_BYTE); Z.lor b (Z.lxor m1 FULL_BYTE);
     Z.lor c (Z.lxor m2 FULL_BYTE); Z.lor d (Z.lxor m3 FULL_BYTE)].
  assert (forall i, p <= i < 32 ->
            address_bit
              [Z.lor a (Z.lxor m0 FULL_BYTE); Z.lor b (Z.lxor m1 FULL_BYTE);
               Z.lor c (Z.lxor m2 FULL_BYTE); Z.lor d (Z.lxor m3 FULL_BYTE)] i
            = true) as Hlow.
  { intros i Hi. rewrite address_bit_lor_inverted, Hbits by lia.
    destruct (Z.ltb_spec i p); [lia | apply orb_true_r]. }
  repeat split; try done.
  apply low_bits_set; [by apply byte_address_lor_inverted | done | done].
Qed.

Lemma broadcast_address_low_bits_one_witness :
  exists mask bc,
    get_network_mask "91.124.230.205/30" = Ok mask /\
    invert_address mask = map (fun byte => Z.lxor byte 255) mask /\
    bc = zip_with Z.lor [91; 124; 230; 205] (invert_address mask) /\
    get_broadcast_address_from_raw_address "91.124.230.205/30" =
      Ok (join_address bc) /\
    (forall i, 30 <= i < 32 -> address_bit bc i = true) /\
    address_value bc mod 2 ^ (32 - 30) = 2 ^ (32 - 30) - 1.
Proof.
  apply (broadcast_address_low_bits_one "91.124.230.205/30" 91 124 230 205 30);
    [reflexivity | | reflexivity | lia].
  split; [reflexivity|]. rewrite !Forall_cons, Forall_nil. unfold is_byte. lia.
Defined.

(** * Further properties of the module *)

(** ** Parsing, formatting and their errors *)

Lemma py_int_raises s e : py_int s = Raise e -> e = ValueError.
Proof.
  unfold py_int.
  destruct (match strip s with EmptyString => _ | String c r => _ end);
    [done | by intros [= <-]].
Qed.

Lemma map_result_raises {A B} (f : A -> result B) (xs : list A) (x : A) e :
  (forall y e', f y = Raise e' -> e' = e) ->
  In x xs -> f x = Raise e -> map_result f xs = Raise e.
Proof.
  intros Hone Hin Hx. induction xs as [|y ys IH]; [done|].
  simpl. destruct (f y) as [b|e'] eqn:Hy.
  - destruct Hin as [->|Hin]; [congruence|].
    simpl. by rewrite (IH Hin).
  - simpl. by rewrite (Hone _ _ Hy).
Qed.

(** X1: [split_address] undoes [join_address] on every non-empty list of
    integers, whatever their range and sign, and whatever text follows the
    first slash of the raw address is ignored. *)
Theorem split_after_join (bytes : list Z) (suffix : string) :
  bytes <> [] ->
  split_address (join_address bytes) = Ok bytes /\
  split_address (join_address bytes +:+ "/" +:+ suffix) = Ok bytes /\
  get_ip_from_raw_address (join_address bytes +:+ "/" +:+ suffix) =
    Ok (join_address bytes).
Proof.
  intros Hne.
  pose proof (get_ip_cidr _ suffix (join_address_free bytes)) as Hip.
  change (String "/" suffix) with ("/" +:+ suffix) in Hip.
  split; [by apply split_join_address|]. split; [|done].
  rewrite <- (split_address_ip _ _ Hip). by apply split_join_address.
Qed.

Lemma split_after_join_witness :
  split_address (join_address [-7; 300; 0]) = Ok [-7; 300; 0] /\
  split_address (join_address [-7; 300; 0] +:+ "/" +:+ "24/x") = Ok [-7; 300; 0] /\
  get_ip_from_raw_address (join_address [-7; 300; 0] +:+ "/" +:+ "24/x") =
    Ok (join_address [-7; 300; 0]).
Proof. apply (split_after_join [-7; 300; 0] "24/x"). discriminate. Defined.

Lemma map_result_raise_inv {A B} (f : A -> result B) (xs : list A) e :
  map_result f xs = Raise e -> exists x, In x xs /\ f x = Raise e.
Proof.
  induction xs as [|y ys IH]; [done|]. simpl.
  destruct (f y) as [b|e'] eqn:Hy; simpl.
  - destruct (map_result f ys) as [bs|e'']; [done|]. simpl. intros [= <-].
    destruct IH as (x & Hin & Hx); [done|]. eauto.
  - intros [= <-]. eauto.
Qed.

Lemma map_result_length {A B} (f : A -> result B) (xs : list A) (ys : list B) :
  map_result f xs = Ok ys -> length ys = length xs.
Proof.
  revert ys. induction xs as [|x xs IH]; intros ys; simpl.
  - by intros [= <-].
  - destruct (f x) as [b|e]; [|done]. simpl.
    destruct (map_result f xs) as [bs|e]; [|done]. simpl.
    intros [= <-]. simpl. by rewrite (IH bs).
Qed.

Lemma split_address_only_value_error raw :
  forall e, split_address raw = Raise e -> e = ValueError.
Proof.
  intros e. unfold split_address.
  destruct (get_ip_from_raw_address raw) as [ip|e0] eqn:Hip.
  - simpl. intros Hraise.
    apply map_result_raise_inv in Hraise as (x & _ & Hx).
    by apply py_int_raises in Hx.
  - destruct (get_ip_total raw) as (ip & Hip' & _). congruence.
Qed.

(** X2: [split_address] checks nothing itself.  It fails exactly through
    [int]: the only exception it raises is [ValueError], and it raises it
    as soon as one dot-separated field of the address part is not an
    integer literal (an empty field included).  When it succeeds it
    returns one integer per field, however many there are, and never an
    empty list. *)
Theorem split_address_errors raw :
  (forall e, split_address raw = Raise e -> e = ValueError) /\
  (forall ip field,
      get_ip_from_raw_address raw = Ok ip ->
      In field (str_split "." ip) -> py_int field = Raise ValueError ->
      split_address raw = Raise ValueError) /\
  (forall ip bytes,
      get_ip_from_raw_address raw = Ok ip -> split_address raw = Ok bytes ->
      length bytes = length (str_split "." ip) /\ bytes <> []).
Proof.
  destruct (get_ip_total raw) as (ip0 & Hip0 & _).
  split; [|split].
  - intros e. unfold split_address. rewrite Hip0. simpl. intros Hraise.
    apply map_result_raise_inv in Hraise as (x & _ & Hx).
    by apply py_int_raises in Hx.
  - intros ip field Hip Hin Hfield. unfold split_address. rewrite Hip. simpl.
    apply (map_result_raises py_int _ field); [|done|done].
    intros y e' Hy. by apply py_int_raises in Hy.
  - intros ip bytes Hip. unfold split_address. rewrite Hip. simpl.
    intros Hlen%map_result_length. split; [done|].
    intros ->. simpl in Hlen.
    by destruct (str_split "." ip) eqn:Hs; [destruct (str_split_nonempty "." ip)|].
Qed.

Lemma split_address_errors_witness :
  split_address "1..3.4/8" = Raise ValueError /\
  (length [10; 20; 30; 40; 50] = length (str_split "." "10.20.30.40.50") /\
   [10; 20; 30; 40; 50] <> []).
Proof.
  split.
  - apply (proj1 (proj2 (split_address_errors "1..3.4/8")) "1..3.4" "");
      [reflexivity | simpl; tauto | reflexivity].
  - apply (proj2 (proj2 (split_address_errors "10.20.30.40.50/8"))
             "10.20.30.40.50" [10; 20; 30; 40; 50]); reflexivity.
Defined.

(** X3: [get_ip_from_raw_address] never raises.  Its result holds no
    slash and is the part of the raw address in front of the first slash,
    or the whole raw address when there is none; applying the function
    again changes nothing. *)
Theorem get_ip_is_leading_part raw :
  exists ip,
    get_ip_from_raw_address raw = Ok ip /\
    all_chars (differs "/") ip = true /\
    (raw = ip \/ exists rest, raw = ip +:+ "/" +:+ rest) /\
    get_ip_from_raw_address ip = Ok ip.
Proof.
  destruct (get_ip_total raw) as (ip & Hip & Hidem).
  exists ip. split; [done|].
  assert (all_chars (differs "/") ip = true) as Hfree.
  { unfold get_ip_from_raw_address, str_rsplit in Hip.
    destruct (str_split "/" raw) as [|h t] eqn:Hs; [done|].
    injection Hip as <-. by eapply str_split_head_free. }
  split; [done|]. split; [|done].
  clear Hidem Hfree. revert ip Hip.
  unfold get_ip_from_raw_address, str_rsplit.
  induction raw as [|c raw IH]; intros ip; simpl.
  - intros [= <-]. by left.
  - destruct (Ascii.eqb_spec c "/") as [->|Hc].
    + intros [= <-]. right. by exists raw.
    + destruct (str_split "/" raw) as [|h t] eqn:Hs.
      * by destruct (str_split_nonempty "/" raw).
      * intros [= <-]. destruct (IH h eq_refl) as [->|[rest ->]].
        -- by left.
        -- right. by exists rest.
Qed.

Lemma invert_byte (b : Z) :
  Z.lxor (Z.lxor b FULL_BYTE) FULL_BYTE = b /\
  (is_byte b -> is_byte (Z.lxor b FULL_BYTE) /\ Z.lxor b FULL_BYTE = 255 - b).
Proof.
  split.
  - by rewrite Z.lxor_assoc, Z.lxor_nilpotent, Z.lxor_0_r.
  - intros Hb. assert (is_byte FULL_BYTE) as H255 by (unfold is_byte, FULL_BYTE; lia).
    split; [by apply is_byte_lxor|].
    unfold FULL_BYTE. change 255 with (Z.ones 8).
    assert (forall t, 8 <= t -> Z.testbit b t = false) as Hhigh.
    { intros t Ht. apply is_byte_land in Hb. rewrite <- Hb, Z.land_spec.
      change 255 with (Z.ones 8). rewrite Z.ones_spec_high by lia.
      apply andb_false_r. }
    assert (Z.land b (Z.lxor b (Z.ones 8)) = 0) as Hdisj.
    { apply Z.bits_inj'. intros t Ht.
      rewrite Z.land_spec, Z.lxor_spec, Z.bits_0.
      destruct (Z.ltb_spec t 8).
      - rewrite Z.ones_spec_low by lia. by destruct (Z.testbit b t).
      - by rewrite Hhigh. }
    assert (Z.lor b (Z.lxor b (Z.ones 8)) = Z.ones 8) as Hall.
    { apply Z.bits_inj'. intros t Ht. rewrite Z.lor_spec, Z.lxor_spec.
      destruct (Z.ltb_spec t 8).
      - rewrite Z.ones_spec_low by lia. by destruct (Z.testbit b t).
      - by rewrite Hhigh, Z.ones_spec_high by lia. }
    pose proof (Z.add_nocarry_lor _ _ Hdisj) as Hsum. rewrite Hall in Hsum. lia.
Qed.

(** X4: [invert_address] is an involution on every list of integers; it
    keeps the length, and on bytes it stays within [0,255] and turns each
    byte b into 255 - b. *)
Theorem invert_address_involution (bytes : list Z) :
  invert_address (invert_address bytes) = bytes /\
  length (invert_address bytes) = length bytes /\
  (Forall is_byte bytes ->
   Forall is_byte (invert_address bytes) /\
   invert_address bytes = map (fun b => 255 - b) bytes).
Proof.
  rewrite !invert_address_map. split; [|split].
  - rewrite map_map. rewrite <- (map_id bytes) at 2. apply map_ext.
    intros b. apply invert_byte.
  - by rewrite length_map.
  - intros Hbytes. split.
    + apply Forall_map. eapply Forall_impl; [exact Hbytes|].
      intros b Hb. simpl. by apply invert_byte.
    + induction Hbytes as [|b bs Hb _ IH]; [done|].
      simpl. rewrite IH. f_equal. by apply invert_byte.
Qed.

Lemma invert_address_involution_witness :
  Forall is_byte (invert_address [192; 168; 1; 15]) /\
  invert_address [192; 168; 1; 15] = map (fun b => 255 - b) [192; 168; 1; 15].
Proof.
  apply (proj2 (proj2 (invert_address_involution [192; 168; 1; 15]))).
  rewrite !Forall_cons, Forall_nil. unfold is_byte. lia.
Defined.

(** X5: a raw address without a slash has no prefix field: the mask, the
    binary mask and the host count raise [IndexError], and so does the
    network address once the address part itself parses. *)
Theorem missing_prefix_raises raw :
  all_chars (differs "/") raw = true ->
  get_network_mask raw = Raise IndexError /\
  get_binary_mask_from_raw_address raw = Raise IndexError /\
  get_number_of_usable_hosts_from_raw_address raw = Raise IndexError /\
  (forall bytes, split_address raw = Ok bytes ->
     get_network_address_from_raw_address raw = Raise IndexError /\
     get_broadcast_address_from_raw_address raw = Raise IndexError).
Proof.
  intros Hfree.
  assert (py_getitem (str_rsplit "/" raw) 1 = Raise IndexError) as Hfield.
  { unfold str_rsplit. by rewrite str_split_free. }
  assert (get_network_mask raw = Raise IndexError) as Hmask.
  { unfold get_network_mask. by rewrite Hfield. }
  split; [done|]. split; [|split].
  - unfold get_binary_mask_from_raw_address. by rewrite Hmask.
  - unfold get_number_of_usable_hosts_from_raw_address. by rewrite Hfield.
  - intros bytes Hbytes. split.
    + unfold get_network_address_from_raw_address. by rewrite Hbytes, Hmask.
    + unfold get_broadcast_address_from_raw_address.
      rewrite (get_ip_free raw Hfree). simpl. by rewrite Hbytes, Hmask.
Qed.

Lemma missing_prefix_raises_witness :
  get_network_mask "10.0.0.1" = Raise IndexError /\
  get_binary_mask_from_raw_address "10.0.0.1" = Raise IndexError /\
  get_number_of_usable_hosts_from_raw_address "10.0.0.1" = Raise IndexError /\
  (forall bytes, split_address "10.0.0.1" = Ok bytes ->
     get_network_address_from_raw_address "10.0.0.1" = Raise IndexError /\
     get_broadcast_address_from_raw_address "10.0.0.1" = Raise IndexError).
Proof. apply (missing_prefix_raises "10.0.0.1"). reflexivity. Defined.

(** ** The number of octets *)

Lemma network_address_first_four raw a b c d rest m0 m1 m2 m3 :
  split_address raw = Ok (a :: b :: c :: d :: rest) ->
  get_network_mask raw = Ok [m0; m1; m2; m3] ->
  get_network_address_from_raw_address raw =
    Ok (join_address [Z.land a m0; Z.land b m1; Z.land c m2; Z.land d m3]).
Proof.
  intros Hip Hmask. unfold get_network_address_from_raw_address.
  rewrite Hip. simpl. rewrite Hmask. reflexivity.
Qed.

Lemma enumerate_five {A} (a b c d e : A) (rest : list A) :
  exists more,
    enumerate (a :: b :: c :: d :: e :: rest) =
      (0, a) :: (1, b) :: (2, c) :: (3, d) :: (4, e) :: more.
Proof. unfold enumerate, range. rewrite Nat2Z.id. simpl. eauto. Qed.

(** X6: nothing checks that an address has four octets.  With five or
    more, the network address is computed from the first four and the
    extra octets are dropped without notice, whereas the broadcast address
    (and with it the penultimate usable address) raises [IndexError]. *)
Theorem extra_octets raw a b c d e rest p :
  split_address raw = Ok (a :: b :: c :: d :: e :: rest) ->
  raw_prefix_length raw = Ok p -> p <= 32 ->
  exists m0 m1 m2 m3,
    get_network_mask raw = Ok [m0; m1; m2; m3] /\
    get_network_address_from_raw_address raw =
      Ok (join_address [Z.land a m0; Z.land b m1; Z.land c m2; Z.land d m3]) /\
    get_broadcast_address_from_raw_address raw = Raise IndexError /\
    get_penultimate_usable_ip_address_from_raw_address raw = Raise IndexError.
Proof.
  intros Hip Hp Hle.
  destruct (network_mask_four raw p Hp Hle)
    as (m0 & m1 & m2 & m3 & Hmask & _ & _).
  exists m0, m1, m2, m3. split; [done|].
  split; [by eapply network_address_first_four|].
  assert (get_broadcast_address_from_raw_address raw = Raise IndexError) as Hbc.
  { unfold get_broadcast_address_from_raw_address.
    destruct (get_ip_total raw) as (ip & Hraw & _). rewrite Hraw. simpl.
    rewrite (split_address_ip raw ip Hraw), Hip. simpl. rewrite Hmask. simpl.
    destruct (enumerate_five a b c d e rest) as [more ->]. reflexivity. }
  split; [done|].
  unfold get_penultimate_usable_ip_address_from_raw_address. by rewrite Hbc.
Qed.

Lemma extra_octets_witness :
  exists m0 m1 m2 m3,
    get_network_mask "10.20.30.40.50/8" = Ok [m0; m1; m2; m3] /\
    get_network_address_from_raw_address "10.20.30.40.50/8" =
      Ok (join_address [Z.land 10 m0; Z.land 20 m1; Z.land 30 m2; Z.land 40 m3]) /\
    get_broadcast_address_from_raw_address "10.20.30.40.50/8" = Raise IndexError /\
    get_penultimate_usable_ip_address_from_raw_address "10.20.30.40.50/8" =
      Raise IndexError.
Proof.
  apply (extra_octets "10.20.30.40.50/8" 10 20 30 40 50 [] 8);
    [reflexivity | reflexivity | lia].
Defined.

(** X7: with fewer than four octets it is the other way round: the
    network address (and with it the first usable address) raises
    [IndexError], whereas the broadcast address is computed without notice
    from the octets there are and has as few elements as the address. *)
Theorem missing_octets raw bytes p :
  split_address raw = Ok bytes -> (length bytes < 4)%nat ->
  raw_prefix_length raw = Ok p -> p <= 32 ->
  exists mask,
    get_network_mask raw = Ok mask /\
    get_network_address_from_raw_address raw = Raise IndexError /\
    get_first_usable_ip_address_from_raw_address raw = Raise IndexError /\
    get_broadcast_address_from_raw_address raw =
      Ok (join_address (zip_with Z.lor bytes (invert_address mask))) /\
    length (zip_with Z.lor bytes (invert_address mask)) = length bytes.
Proof.
  intros Hip Hlen Hp Hle.
  destruct (network_mask_four raw p Hp Hle)
    as (m0 & m1 & m2 & m3 & Hmask & _ & _).
  exists [m0; m1; m2; m3]. split; [done|].
  assert (get_network_address_from_raw_address raw = Raise IndexError) as Hnet.
  { unfold get_network_address_from_raw_address. rewrite Hip. simpl.
    rewrite Hmask. simpl.
    destruct bytes as [|a [|b [|c [|d ?]]]]; simpl in Hlen; (reflexivity || lia). }
  split; [done|]. split.
  { unfold get_first_usable_ip_address_from_raw_address. by rewrite Hnet. }
  split.
  - unfold get_broadcast_address_from_raw_address.
    destruct (get_ip_total raw) as (ip & Hraw & _). rewrite Hraw. simpl.
    rewrite (split_address_ip raw ip Hraw), Hip. simpl. rewrite Hmask. simpl.
    destruct bytes as [|a [|b [|c [|d ?]]]]; simpl in Hlen; (reflexivity || lia).
  - destruct bytes as [|a [|b [|c [|d ?]]]]; simpl in Hlen; (reflexivity || lia).
Qed.

Lemma missing_octets_witness :
  exists mask,
    get_network_mask "10.20.30/8" = Ok mask /\
    get_network_address_from_raw_address "10.20.30/8" = Raise IndexError /\
    get_first_usable_ip_address_from_raw_address "10.20.30/8" = Raise IndexError /\
    get_broadcast_address_from_raw_address "10.20.30/8" =
      Ok (join_address (zip_with Z.lor [10; 20; 30] (invert_address mask))) /\
    length (zip_with Z.lor [10; 20; 30] (invert_address mask)) =
      length [10; 20; 30].
Proof.
  apply (missing_octets "10.20.30/8" [10; 20; 30] 8);
    [reflexivity | simpl; lia | reflexivity | lia].
Defined.

(** X8: the network address is a Byte Address whatever the octets are:
    octets below 0 or above 255 are accepted and the AND with the mask
    brings every element into [0,255]. *)
Theorem network_address_always_bytes raw a b c d p :
  split_address raw = Ok [a; b; c; d] ->
  raw_prefix_length raw = Ok p -> p <= 32 ->
  exists net,
    get_network_address_from_raw_address raw = Ok (join_address net) /\
    split_address (join_address net) = Ok net /\
    byte_address net.
Proof.
  intros Hip Hp Hle.
  destruct (derived_addresses _ _ _ _ _ _ Hip Hp Hle)
    as (m0 & m1 & m2 & m3 & _ & Hbytes & _ & Hnet & _).
  cbv zeta in Hnet. eexists. split; [exact Hnet|].
  split; [by apply split_join_address | by apply byte_address_land].
Qed.

Lemma network_address_always_bytes_witness :
  exists net,
    get_network_address_from_raw_address "300.-7.999.1000/20" =
      Ok (join_address net) /\
    split_address (join_address net) = Ok net /\
    byte_address net.
Proof.
  apply (network_address_always_bytes "300.-7.999.1000/20" 300 (-7) 999 1000 20);
    [reflexivity | reflexivity | lia].
Defined.

(** ** Addresses as numbers *)

Lemma address_value_range (bytes : list Z) :
  byte_address bytes -> 0 <= address_value bytes < 2 ^ 32.
Proof.
  intros [Hlen Hbytes].
  destruct (four_bytes bytes Hlen) as (x0 & x1 & x2 & x3 & ->).
  rewrite !Forall_cons in Hbytes. unfold is_byte in Hbytes.
  unfold address_value. simpl. change (2 ^ 32) with 4294967296. lia.
Qed.

Lemma address_value_high_bit (bytes : list Z) (t : Z) :
  byte_address bytes -> 32 <= t -> Z.testbit (address_value bytes) t = false.
Proof.
  intros Hbytes Ht. pose proof (address_value_range bytes Hbytes) as Hv.
  rewrite <- (Z.mod_small (address_value bytes) (2 ^ 32)) by done.
  apply Z.mod_pow2_bits_high. lia.
Qed.

(** The network address is the address with its lowest [32 - p] bits
    cleared, the broadcast address the same with these bits set. *)
Lemma network_broadcast_values a b c d m0 m1 m2 m3 p :
  byte_address [a; b; c; d] -> byte_address [m0; m1; m2; m3] -> 0 <= p <= 32 ->
  (forall i, 0 <= i < 32 -> address_bit [m0; m1; m2; m3] i = (i <? p)) ->
  let A := address_value [a; b; c; d] in
  let N := address_value [Z.land a m0; Z.land b m1; Z.land c m2; Z.land d m3] in
  let B := address_value
             [Z.lor a (Z.lxor m0 FULL_BYTE); Z.lor b (Z.lxor m1 FULL_BYTE);
              Z.lor c (Z.lxor m2 FULL_BYTE); Z.lor d (Z.lxor m3 FULL_BYTE)] in
  N = A - A mod 2 ^ (32 - p) /\ B = N + 2 ^ (32 - p) - 1.
Proof.
  intros Ha Hm Hp Hbits A N B.
  pose proof (byte_address_land a b c d _ _ _ _ Hm) as Hn.
  pose proof (byte_address_lor_inverted _ _ _ _ _ _ _ _ Ha Hm) as Hb.
  assert (forall t, 0 <= t < 32 ->
            Z.testbit N t = Z.testbit A t && (32 - p <=? t)) as HNbit.
  { intros t Ht. unfold N, A. rewrite !address_value_bit by done.
    rewrite address_bit_land, Hbits by lia. f_equal.
    destruct (Z.ltb_spec (31 - t) p), (Z.leb_spec (32 - p) t); lia. }
  assert (forall t, 0 <= t < 32 ->
            Z.testbit B t = Z.testbit A t || (t <? 32 - p)) as HBbit.
  { intros t Ht. unfold B, A. rewrite !address_value_bit by done.
    rewrite address_bit_lor_inverted, Hbits by lia. f_equal.
    destruct (Z.ltb_spec (31 - t) p), (Z.ltb_spec t (32 - p)); simpl; lia. }
  assert (N = Z.shiftl (Z.shiftr A (32 - p)) (32 - p)) as HN.
  { apply Z.bits_inj'. intros t Ht. rewrite Z.shiftl_spec by done.
    destruct (Z.ltb_spec t 32).
    - rewrite HNbit by lia. destruct (Z.leb_spec (32 - p) t).
      + rewrite Z.shiftr_spec by lia. rewrite andb_true_r. f_equal. lia.
      + rewrite (Z.testbit_neg_r (Z.shiftr A (32 - p))) by lia.
        apply andb_false_r.
    - unfold N. rewrite address_value_high_bit by done.
      rewrite Z.shiftr_spec by lia.
      replace (t - (32 - p) + (32 - p)) with t by lia.
      unfold A. by rewrite address_value_high_bit. }
  assert (Z.land N (Z.ones (32 - p)) = 0) as Hdisj.
  { rewrite Z.land_ones by lia. rewrite HN, Z.shiftl_mul_pow2 by lia.
    rewrite Z.mod_mul by (pose proof (Z.pow_pos_nonneg 2 (32 - p)); lia).
    done. }
  assert (B = Z.lor N (Z.ones (32 - p))) as HB.
  { apply Z.bits_inj'. intros t Ht. rewrite Z.lor_spec.
    destruct (Z.ltb_spec t 32).
    - rewrite HBbit, HNbit by lia.
      destruct (Z.ltb_spec t (32 - p)), (Z.leb_spec (32 - p) t); try lia.
      + rewrite Z.ones_spec_low by lia. by rewrite !orb_true_r.
      + rewrite Z.ones_spec_high by lia. by rewrite andb_true_r.
    - unfold B, N. rewrite !address_value_high_bit by done.
      by rewrite Z.ones_spec_high by lia. }
  split.
  - rewrite HN, Z.shiftl_mul_pow2, Z.shiftr_div_pow2 by lia.
    pose proof (Z.div_mod A (2 ^ (32 - p))) as Hdm.
    pose proof (Z.pow_pos_nonneg 2 (32 - p)). lia.
  - rewrite HB, <- Z.add_nocarry_lor, Z.ones_equiv by done. lia.
Qed.

(** X9: for an address with octets in [0,255] and a prefix length p in
    [0,32], read as 32-bit numbers the network address is the address
    rounded down to a multiple of 2^(32-p), the broadcast address is the
    network address plus 2^(32-p) - 1, the address lies between the two,
    and the number of usable hosts is the number of addresses strictly
    between them. *)
Theorem network_address_broadcast_span raw a b c d p :
  split_address raw = Ok [a; b; c; d] -> byte_address [a; b; c; d] ->
  raw_prefix_length raw = Ok p -> 0 <= p <= 32 ->
  exists net bc,
    get_network_address_from_raw_address raw = Ok (join_address net) /\
    get_broadcast_address_from_raw_address raw = Ok (join_address bc) /\
    address_value net =
      address_value [a; b; c; d] - address_value [a; b; c; d] mod 2 ^ (32 - p) /\
    address_value bc = address_value net + 2 ^ (32 - p) - 1 /\
    address_value net <= address_value [a; b; c; d] <= address_value bc /\
    get_number_of_usable_hosts_from_raw_address raw =
      Ok (PyInt (address_value bc - address_value net - 1)).
Proof.
  intros Hip Hoctets Hp Hrange.
  destruct (derived_addresses _ _ _ _ _ _ Hip Hp)
    as (m0 & m1 & m2 & m3 & _ & Hbytes & Hbits & Hnet & Hbc & _); [lia|].
  cbv zeta in Hnet, Hbc.
  destruct (network_broadcast_values a b c d m0 m1 m2 m3 p)
    as [HN HB]; [done | done | done | by apply Hbits; lia |].
  cbv zeta in HN, HB.
  eexists _, _. split; [exact Hnet|]. split; [exact Hbc|].
  split; [exact HN|]. split; [exact HB|].
  pose proof (Z.mod_pos_bound (address_value [a; b; c; d]) (2 ^ (32 - p))) as Hmod.
  pose proof (Z.pow_pos_nonneg 2 (32 - p)).
  split; [lia|].
  unfold get_number_of_usable_hosts_from_raw_address.
  unfold raw_prefix_length in Hp.
  destruct (py_getitem (str_rsplit "/" raw) 1) as [field|e]; [|done].
  simpl in *. rewrite Hp. simpl. unfold py_pow2_minus2.
  destruct (Z.leb_spec 0 (32 - p)); [|lia]. do 2 f_equal. lia.
Qed.

Lemma network_address_broadcast_span_witness :
  exists net bc,
    get_network_address_from_raw_address "91.124.230.205/30" =
      Ok (join_address net) /\
    get_broadcast_address_from_raw_address "91.124.230.205/30" =
      Ok (join_address bc) /\
    address_value net =
      address_value [91; 124; 230; 205]
      - address_value [91; 124; 230; 205] mod 2 ^ (32 - 30) /\
    address_value bc = address_value net + 2 ^ (32 - 30) - 1 /\
    address_value net <= address_value [91; 124; 230; 205] <= address_value bc /\
    get_number_of_usable_hosts_from_raw_address "91.124.230.205/30" =
      Ok (PyInt (address_value bc - address_value net - 1)).
Proof.
  apply (network_address_broadcast_span "91.124.230.205/30" 91 124 230 205 30);
    [reflexivity | | reflexivity | lia].
  split; [reflexivity|]. rewrite !Forall_cons, Forall_nil. unfold is_byte. lia.
Defined.

(** X10: read as a 32-bit number, the network mask of a prefix length p in
    [0,32] is 2^32 - 2^(32-p), and its inverse, the mask ORed into the
    broadcast address, is 2^(32-p) - 1. *)
Theorem network_mask_value raw p :
  raw_prefix_length raw = Ok p -> 0 <= p <= 32 ->
  exists mask,
    get_network_mask raw = Ok mask /\
    address_value mask = 2 ^ 32 - 2 ^ (32 - p) /\
    address_value (invert_address mask) = 2 ^ (32 - p) - 1.
Proof.
  intros Hp Hrange.
  destruct (network_mask_four raw p Hp)
    as (m0 & m1 & m2 & m3 & Hmask & Hbytes & Hbits); [lia|].
  exists [m0; m1; m2; m3]. split; [done|].
  assert (address_value [m0; m1; m2; m3] = 2 ^ 32 - 2 ^ (32 - p)) as Hvalue.
  { replace (2 ^ 32 - 2 ^ (32 - p)) with (Z.shiftl (Z.ones p) (32 - p)).
    - apply Z.bits_inj'. intros t Ht. rewrite Z.shiftl_spec by done.
      destruct (Z.ltb_spec t 32).
      + rewrite address_value_bit, Hbits by (done || lia).
        destruct (Z.ltb_spec (31 - t) p).
        * rewrite Z.ones_spec_low by lia. done.
        * rewrite Z.testbit_neg_r by lia. done.
      + rewrite address_value_high_bit by done.
        rewrite Z.ones_spec_high by lia. done.
    - rewrite Z.shiftl_mul_pow2, Z.ones_equiv by lia.
      replace (2 ^ 32) with (2 ^ p * 2 ^ (32 - p))
        by (rewrite <- Z.pow_add_r by lia; f_equal; lia).
      lia. }
  split; [done|].
  destruct Hbytes as [_ Hbytes]. rewrite !Forall_cons in Hbytes.
  destruct Hbytes as (H0 & H1 & H2 & H3 & _).
  rewrite invert_address_map. simpl map.
  rewrite (proj2 (proj2 (invert_byte m0) H0)), (proj2 (proj2 (invert_byte m1) H1)),
    (proj2 (proj2 (invert_byte m2) H2)), (proj2 (proj2 (invert_byte m3) H3)).
  unfold address_value in *. simpl in *. change (2 ^ 32) with 4294967296 in Hvalue.
  lia.
Qed.

Lemma byte_high_bits b t : is_byte b -> 8 <= t -> Z.testbit b t = false.
Proof.
  intros Hb Ht. apply is_byte_land in Hb. rewrite <- Hb, Z.land_spec.
  change 255 with (Z.ones 8). rewrite Z.ones_spec_high by lia.
  apply andb_false_r.
Qed.

(** What masking and filling do to a byte that was masked or filled
    before. *)
Lemma mask_fill_bytes a m :
  is_byte a -> is_byte m ->
  Z.land (Z.land a m) m = Z.land a m /\
  Z.lor (Z.land a m) (Z.lxor m FULL_BYTE) = Z.lor a (Z.lxor m FULL_BYTE) /\
  Z.land (Z.lor a (Z.lxor m FULL_BYTE)) m = Z.land a m /\
  Z.lor (Z.lor a (Z.lxor m FULL_BYTE)) (Z.lxor m FULL_BYTE) =
    Z.lor a (Z.lxor m FULL_BYTE).
Proof.
  intros Ha Hm. unfold FULL_BYTE. change 255 with (Z.ones 8).
  repeat split; apply Z.bits_inj'; intros t Ht;
    rewrite ?Z.land_spec, ?Z.lor_spec, ?Z.lxor_spec, ?Z.land_spec;
    (destruct (Z.ltb_spec t 8);
     [ rewrite ?Z.ones_spec_low by lia
     | rewrite ?Z.ones_spec_high, ?(byte_high_bits a t), ?(byte_high_bits m t)
         by (done || lia) ]);
    by destruct (Z.testbit a t), (Z.testbit m t).
Qed.

Lemma parse_joined (bytes : list Z) (P : string) (p : Z) :
  bytes <> [] -> all_chars (differs "/") P = true -> py_int P = Ok p ->
  split_address (join_address bytes +:+ "/" +:+ P) = Ok bytes /\
  raw_prefix_length (join_address bytes +:+ "/" +:+ P) = Ok p.
Proof.
  intros Hne HP Hp. change ("/" +:+ P) with (String "/" P). split.
  - pose proof (get_ip_cidr _ P (join_address_free bytes)) as Hip.
    rewrite <- (split_address_ip _ _ Hip). by apply split_join_address.
  - unfold raw_prefix_length.
    rewrite prefix_field_cidr by (done || apply join_address_free). done.
Qed.

Lemma network_mask_same_prefix raw raw' p :
  raw_prefix_length raw = Ok p -> raw_prefix_length raw' = Ok p ->
  get_network_mask raw' = get_network_mask raw.
Proof. intros Hp Hp'. by rewrite !get_network_mask_loop, Hp, Hp'. Qed.

(** X11: network and broadcast address depend on the address only through
    its network.  For octets in [0,255] and a prefix length of at most 32,
    putting the network address or the broadcast address back in front of
    the same prefix gives the same network address and the same broadcast
    address again. *)
Theorem network_of_network a b c d P p :
  byte_address [a; b; c; d] ->
  all_chars (differs "/") P = true -> py_int P = Ok p -> p <= 32 ->
  exists net bc,
    get_network_address_from_raw_address
      (join_address [a; b; c; d] +:+ "/" +:+ P) = Ok net /\
    get_broadcast_address_from_raw_address
      (join_address [a; b; c; d] +:+ "/" +:+ P) = Ok bc /\
    get_network_address_from_raw_address (net +:+ "/" +:+ P) = Ok net /\
    get_broadcast_address_from_raw_address (net +:+ "/" +:+ P) = Ok bc /\
    get_network_address_from_raw_address (bc +:+ "/" +:+ P) = Ok net /\
    get_broadcast_address_from_raw_address (bc +:+ "/" +:+ P) = Ok bc.
Proof.
  intros [_ Hoctets] HP Hp Hle. rewrite !Forall_cons in Hoctets.
  destruct Hoctets as (Ha & Hb & Hc & Hd & _).
  destruct (parse_joined [a; b; c; d] P p) as [Hip Hprefix]; [done..|].
  destruct (network_mask_four _ p Hprefix Hle)
    as (m0 & m1 & m2 & m3 & Hmask & [_ Hbytes] & _).
  rewrite !Forall_cons in Hbytes. destruct Hbytes as (H0 & H1 & H2 & H3 & _).
  destruct (mask_fill_bytes a m0 Ha H0) as (Ea1 & Ea2 & Ea3 & Ea4).
  destruct (mask_fill_bytes b m1 Hb H1) as (Eb1 & Eb2 & Eb3 & Eb4).
  destruct (mask_fill_bytes c m2 Hc H2) as (Ec1 & Ec2 & Ec3 & Ec4).
  destruct (mask_fill_bytes d m3 Hd H3) as (Ed1 & Ed2 & Ed3 & Ed4).
  set (net := [Z.land a m0; Z.land b m1; Z.land c m2; Z.land d m3]).
  set (bc := [Z.lor a (Z.lxor m0 FULL_BYTE); Z.lor b (Z.lxor m1 FULL_BYTE);
              Z.lor c (Z.lxor m2 FULL_BYTE); Z.lor d (Z.lxor m3 FULL_BYTE)]).
  destruct (parse_joined net P p) as [Hip_n Hprefix_n]; [done..|].
  destruct (parse_joined bc P p) as [Hip_b Hprefix_b]; [done..|].
  pose proof (network_mask_same_prefix _ _ p Hprefix Hprefix_n) as Hmask_n.
  pose proof (network_mask_same_prefix _ _ p Hprefix Hprefix_b) as Hmask_b.
  rewrite Hmask in Hmask_n, Hmask_b.
  exists (join_address net), (join_address bc).
  split; [by apply network_address_bytes|].
  split; [by apply broadcast_address_bytes|].
  split.
  { rewrite (network_address_bytes _ _ _ _ _ _ _ _ _ Hip_n Hmask_n).
    by rewrite Ea1, Eb1, Ec1, Ed1. }
  split.
  { rewrite (broadcast_address_bytes _ _ _ _ _ _ _ _ _ Hip_n Hmask_n).
    by rewrite Ea2, Eb2, Ec2, Ed2. }
  split.
  { rewrite (network_address_bytes _ _ _ _ _ _ _ _ _ Hip_b Hmask_b).
    by rewrite Ea3, Eb3, Ec3, Ed3. }
  rewrite (broadcast_address_bytes _ _ _ _ _ _ _ _ _ Hip_b Hmask_b).
  by rewrite Ea4, Eb4, Ec4, Ed4.
Qed.

Lemma network_of_network_witness :
  exists net bc,
    get_network_address_from_raw_address
      (join_address [91; 124; 230; 205] +:+ "/" +:+ "20") = Ok net /\
    get_broadcast_address_from_raw_address
      (join_address [91; 124; 230; 205] +:+ "/" +:+ "20") = Ok bc /\
    get_network_address_from_raw_address (net +:+ "/" +:+ "20") = Ok net /\
    get_broadcast_address_from_raw_address (net +:+ "/" +:+ "20") = Ok bc /\
    get_network_address_from_raw_address (bc +:+ "/" +:+ "20") = Ok net /\
    get_broadcast_address_from_raw_address (bc +:+ "/" +:+ "20") = Ok bc.
Proof.
  apply (network_of_network 91 124 230 205 "20" 20);
    [| reflexivity | reflexivity | lia].
  split; [reflexivity|]. rewrite !Forall_cons, Forall_nil. unfold is_byte. lia.
Defined.

(** X12: for octets in [0,255] and a prefix length p in [0,30], the first
    usable and the penultimate usable address are Byte Addresses; as
    numbers they are the network address plus 1 and the broadcast address
    minus 2, and they lie strictly between network and broadcast address,
    the first usable one not after the penultimate one. *)
Theorem usable_addresses_inside_network raw a b c d p :
  split_address raw = Ok [a; b; c; d] -> byte_address [a; b; c; d] ->
  raw_prefix_length raw = Ok p -> 0 <= p <= 30 ->
  exists net bc first penultimate,
    get_network_address_from_raw_address raw = Ok (join_address net) /\
    get_broadcast_address_from_raw_address raw = Ok (join_address bc) /\
    get_first_usable_ip_address_from_raw_address raw = Ok (join_address first) /\
    get_penultimate_usable_ip_address_from_raw_address raw =
      Ok (join_address penultimate) /\
    byte_address first /\ byte_address penultimate /\
    address_value first = address_value net + 1 /\
    address_value penultimate = address_value bc - 2 /\
    address_value net < address_value first /\
    address_value first <= address_value penultimate /\
    address_value penultimate < address_value bc.
Proof.
  intros Hip Hoctets Hp Hrange.
  destruct (derived_addresses _ _ _ _ _ _ Hip Hp)
    as (m0 & m1 & m2 & m3 & _ & Hbytes & Hbits & Hnet & Hbc & Hfirst & Hpen);
    [lia|].
  cbv zeta in Hnet, Hbc.
  destruct (network_broadcast_values a b c d m0 m1 m2 m3 p)
    as [HN HB]; [done | done | lia | by apply Hbits; lia |].
  cbv zeta in HN, HB.
  pose proof (byte_address_land a b c d _ _ _ _ Hbytes) as [_ Hn].
  pose proof (byte_address_lor_inverted _ _ _ _ _ _ _ _ Hoctets Hbytes) as [_ Hb].
  rewrite !Forall_cons in Hn, Hb. unfold is_byte in Hn, Hb.
  assert (2 ^ (32 - p) = 4 * 2 ^ (30 - p)) as H4.
  { replace (32 - p) with (2 + (30 - p)) by lia. by rewrite Z.pow_add_r by lia. }
  pose proof (Z.pow_pos_nonneg 2 (30 - p)) as Hpos.
  pose proof (Z.div_mod (address_value [a; b; c; d]) (2 ^ (32 - p))
                ltac:(lia)) as Hdm.
  rewrite H4 in Hdm at 1. rewrite <- Z.mul_assoc in Hdm.
  set (u := 2 ^ (30 - p) * (address_value [a; b; c; d] / 2 ^ (32 - p))) in Hdm.
  set (w := 2 ^ (30 - p)) in *. set (r := address_value [a; b; c; d] mod 2 ^ (32 - p)) in *.
  clearbody u w r.
  eexists _, _, _, _.
  split; [exact Hnet|]. split; [exact Hbc|].
  split; [exact Hfirst|]. split; [exact Hpen|].
  unfold byte_address, address_value in *. simpl fold_left in *.
  rewrite !Forall_cons, !Forall_nil. unfold is_byte. simpl length.
  lia.
Qed.

Lemma network_mask_value_witness :
  exists mask,
    get_network_mask "0.0.0.0/9" = Ok mask /\
    address_value mask = 2 ^ 32 - 2 ^ (32 - 9) /\
    address_value (invert_address mask) = 2 ^ (32 - 9) - 1.
Proof. apply (network_mask_value "0.0.0.0/9" 9); [reflexivity | lia]. Defined.

Lemma usable_addresses_inside_network_witness :
  exists net bc first penultimate,
    get_network_address_from_raw_address "215.017.125.177/28" =
      Ok (join_address net) /\
    get_broadcast_address_from_raw_address "215.017.125.177/28" =
      Ok (join_address bc) /\
    get_first_usable_ip_address_from_raw_address "215.017.125.177/28" =
      Ok (join_address first) /\
    get_penultimate_usable_ip_address_from_raw_address "215.017.125.177/28" =
      Ok (join_address penultimate) /\
    byte_address first /\ byte_address penultimate /\
    address_value first = address_value net + 1 /\
    address_value penultimate = address_value bc - 2 /\
    address_value net < address_value first /\
    address_value first <= address_value penultimate /\
    address_value penultimate < address_value bc.
Proof.
  apply (usable_addresses_inside_network "215.017.125.177/28" 215 17 125 177 28);
    [reflexivity | | reflexivity | lia].
  split; [reflexivity|]. rewrite !Forall_cons, Forall_nil. unfold is_byte. lia.
Defined.

(** ** Class and private check *)

(** X13: the class and the private check look at the address part only:
    the prefix, and whether there is one at all, makes no difference. *)
Theorem class_and_private_ignore_prefix raw :
  exists ip,
    get_ip_from_raw_address raw = Ok ip /\
    get_ip_class_from_raw_address raw = get_ip_class_from_raw_address ip /\
    check_private_ip_address_from_raw_address raw =
      check_private_ip_address_from_raw_address ip.
Proof.
  destruct (get_ip_total raw) as (ip & Hip & _). exists ip.
  pose proof (split_address_ip raw ip Hip) as Hsame.
  split; [done|].
  unfold get_ip_class_from_raw_address,
    check_private_ip_address_from_raw_address.
  by rewrite Hsame.
Qed.

(** X14: every address the private check accepts has class A, B or C: A
    in the block of 10, B in the block of 172 and C in the block of
    192.168. *)
Theorem private_address_class raw :
  check_private_ip_address_from_raw_address raw = Ok true ->
  exists first rest,
    split_address raw = Ok (first :: rest) /\
    ((first = 10 /\ get_ip_class_from_raw_address raw = Ok "A") \/
     (first = 172 /\ get_ip_class_from_raw_address raw = Ok "B") \/
     (first = 192 /\ get_ip_class_from_raw_address raw = Ok "C")).
Proof.
  unfold check_private_ip_address_from_raw_address, get_ip_class_from_raw_address.
  destruct (split_address raw) as [[|first rest]|e]; [done| |done].
  cbn [mbind result_bind].
  change (py_getitem (first :: rest) 0) with (Ok first).
  cbn [mbind result_bind]. intros Hprivate.
  exists first, rest. split; [done|].
  assert (first = 10 \/ first = 172 \/ first = 192) as [-> | [-> | ->]].
  { destruct (Z.eqb_spec first 10) as [|H10]; [by left|].
    destruct (Z.eqb_spec first 172) as [|H172]; [by right; left|].
    right; right. cbn [mbind result_bind orb] in Hprivate.
    injection Hprivate as Hthird. apply bool_decide_eq_true in Hthird.
    destruct rest; simpl in Hthird; congruence. }
  - left. by split.
  - right; left. by split.
  - right; right. by split.
Qed.

Lemma private_address_class_witness :
  exists first rest,
    split_address "172.25.255.255/8" = Ok (first :: rest) /\
    ((first = 10 /\ get_ip_class_from_raw_address "172.25.255.255/8" = Ok "A") \/
     (first = 172 /\ get_ip_class_from_raw_address "172.25.255.255/8" = Ok "B") \/
     (first = 192 /\ get_ip_class_from_raw_address "172.25.255.255/8" = Ok "C")).
Proof. apply (private_address_class "172.25.255.255/8"). reflexivity. Defined.

(** ** The binary mask *)

Lemma in_range (n k : Z) : 0 <= n < k -> In n (range k).
Proof.
  intros Hn. unfold range. apply in_map_iff. exists (Z.to_nat n).
  split; [lia|]. apply in_seq. lia.
Qed.

Lemma horner2_zeros k s : horner2 0 (zeros k s) = horner2 0 s.
Proof. induction k as [|k IH]; simpl; [done | exact IH]. Qed.

Lemma horner2_pos_binary p acc :
  horner2 0 (pos_binary p acc) = horner2 (Z.pos p) acc.
Proof.
  revert acc. induction p as [q IH|q IH|]; intros acc; simpl.
  - rewrite IH. simpl. f_equal.
  - rewrite IH. simpl. f_equal.
  - done.
Qed.

Lemma is_bit_zeros k s : all_chars is_bit (zeros k s) = all_chars is_bit s.
Proof. induction k as [|k IH]; simpl; [done | exact IH]. Qed.

Lemma is_bit_pos_binary p acc :
  all_chars is_bit (pos_binary p acc) = all_chars is_bit acc.
Proof.
  revert acc. induction p as [q IH|q IH|]; intros acc; simpl; [| |done];
    by rewrite IH.
Qed.

(** X15: ['{:08b}'.format] writes a number that is not negative in binary
    digits whose value is the number again; a byte takes exactly 8
    digits. *)
Theorem format_08b_binary n :
  0 <= n ->
  all_chars is_bit (format_08b n) = true /\
  binary_value (format_08b n) = n /\
  (n <= 255 -> String.length (format_08b n) = 8%nat).
Proof.
  intros Hn. split; [|split].
  - destruct n as [|p|p]; [done | | lia].
    unfold format_08b, zero_pad. by rewrite is_bit_zeros, is_bit_pos_binary.
  - destruct n as [|p|p]; [done | | lia].
    unfold binary_value, format_08b, zero_pad.
    by rewrite horner2_zeros, horner2_pos_binary.
  - intros Hle.
    assert (forallb (fun k => (String.length (format_08b k) =? 8)%nat)
                    (range 256) = true) as Hall by (vm_compute; reflexivity).
    rewrite forallb_forall in Hall.
    apply Nat.eqb_eq, Hall, in_range. lia.
Qed.

Lemma format_08b_binary_witness :
  all_chars is_bit (format_08b 205) = true /\
  binary_value (format_08b 205) = 205 /\
  (205 <= 255 -> String.length (format_08b 205) = 8%nat).
Proof. apply (format_08b_binary 205). lia. Defined.

(** X16: for a prefix length p in [0,32] the binary subnet mask is four
    groups of 8 binary digits joined by dots, 35 characters in all; read
    without the dots it is p ones followed by 32 - p zeros. *)
Theorem binary_mask_text raw p :
  raw_prefix_length raw = Ok p -> 0 <= p <= 32 ->
  exists g0 g1 g2 g3,
    get_binary_mask_from_raw_address raw = Ok (dotted g0 g1 g2 g3) /\
    String.length g0 = 8%nat /\ String.length g1 = 8%nat /\
    String.length g2 = 8%nat /\ String.length g3 = 8%nat /\
    g0 +:+ g1 +:+ g2 +:+ g3 = prefix_bits p.
Proof.
  intros Hp Hrange.
  set (check := fun k : Z =>
    match for_each mask_body (range k) [0; 0; 0; 0] with
    | Ok [m0; m1; m2; m3] =>
        (String.length (format_08b m0) =? 8)%nat &&
        (String.length (format_08b m1) =? 8)%nat &&
        (String.length (format_08b m2) =? 8)%nat &&
        (String.length (format_08b m3) =? 8)%nat &&
        String.eqb (format_08b m0 +:+ format_08b m1 +:+ format_08b m2
                    +:+ format_08b m3) (prefix_bits k)
    | _ => false
    end).
  assert (forallb check (range 33) = true) as Hall by (vm_compute; reflexivity).
  rewrite forallb_forall in Hall.
  specialize (Hall p (in_range p 33 ltac:(lia))). unfold check in Hall.
  unfold get_binary_mask_from_raw_address.
  rewrite get_network_mask_loop, Hp. cbn [mbind result_bind].
  destruct (for_each mask_body (range p) [0; 0; 0; 0])
    as [[|m0 [|m1 [|m2 [|m3 [|? ?]]]]]|e]; try done.
  rewrite !andb_true_iff, !Nat.eqb_eq, String.eqb_eq in Hall.
  destruct Hall as ((((H0 & H1) & H2) & H3) & Hbits).
  exists (format_08b m0), (format_08b m1), (format_08b m2), (format_08b m3).
  done.
Qed.

Lemma binary_mask_text_witness :
  exists g0 g1 g2 g3,
    get_binary_mask_from_raw_address "91.124.230.205/25" =
      Ok (dotted g0 g1 g2 g3) /\
    String.length g0 = 8%nat /\ String.length g1 = 8%nat /\
    String.length g2 = 8%nat /\ String.length g3 = 8%nat /\
    g0 +:+ g1 +:+ g2 +:+ g3 = prefix_bits 25.
Proof.
  apply (binary_mask_text "91.124.230.205/25" 25); [reflexivity | lia].
Defined.

(** ** The report *)





(** X18: when the raw address has no slash, or a prefix length above 32,
    [get_info] prints the 'IP address' line and nothing else: the network
    address line already raises, [IndexError] when the address part
    parses and [ValueError] when it does not. *)
Theorem get_info_stops_after_first_line raw :
  all_chars (differs "/") raw = true \/
  (exists p, raw_prefix_length raw = Ok p /\ 32 < p) ->
  exists ip e,
    get_ip_from_raw_address raw = Ok ip /\
    get_info raw = ([("IP address:", PyText ip)], Raise e) /\
    (forall bytes, split_address raw = Ok bytes -> e = IndexError) /\
    (forall e', split_address raw = Raise e' -> e = ValueError).
Proof.
  intros Hcase.
  assert (get_network_mask raw = Raise IndexError) as Hmask.
  { destruct Hcase as [Hfree|(p & Hp & Hlarge)].
    - unfold get_network_mask, str_rsplit. by rewrite str_split_free.
    - by apply (network_mask_beyond raw p). }
  destruct (get_ip_total raw) as (ip & Hraw & _).
  exists ip. destruct (split_address raw) as [bytes|e'] eqn:Hsplit.
  - exists IndexError. split; [done|]. split; [|split; [done|done]].
    unfold get_info, get_network_address_from_raw_address.
    by rewrite Hraw, Hsplit, Hmask.
  - pose proof (split_address_only_value_error raw e' Hsplit) as ->.
    exists ValueError. split; [done|]. split; [|split; [done|done]].
    unfold get_info, get_network_address_from_raw_address.
    by rewrite Hraw, Hsplit.
Qed.

Lemma get_info_stops_after_first_line_witness :
  exists ip e,
    get_ip_from_raw_address "1.2.3.0/33" = Ok ip /\
    get_info "1.2.3.0/33" = ([("IP address:", PyText ip)], Raise e) /\
    (forall bytes, split_address "1.2.3.0/33" = Ok bytes -> e = IndexError) /\
    (forall e', split_address "1.2.3.0/33" = Raise e' -> e = ValueError).
Proof.
  apply (get_info_stops_after_first_line "1.2.3.0/33").
  right. exists 33. split; [reflexivity | lia].
Defined.

(** X19: a negative prefix length is not refused by the host count
    either: the result is the integer 2^(32-p) - 2, which is at least
    2^32, more hosts than there are IPv4 addresses. *)
Theorem usable_hosts_negative_prefix raw p :
  raw_prefix_length raw = Ok p -> p < 0 ->
  get_number_of_usable_hosts_from_raw_address raw =
    Ok (PyInt (2 ^ (32 - p) - 2)) /\
  2 ^ 32 <= 2 ^ (32 - p) - 2.
Proof.
  intros Hp Hneg. split.
  - unfold get_number_of_usable_hosts_from_raw_address.
    unfold raw_prefix_length in Hp.
    destruct (py_getitem (str_rsplit "/" raw) 1) as [field|e]; [|done].
    simpl in *. rewrite Hp. simpl. unfold py_pow2_minus2.
    destruct (Z.leb_spec 0 (32 - p)); [done | lia].
  - pose proof (Z.pow_le_mono_r 2 33 (32 - p)).
    change (2 ^ 33) with 8589934592 in *. change (2 ^ 32) with 4294967296. lia.
Qed.

Lemma usable_hosts_negative_prefix_witness :
  get_number_of_usable_hosts_from_raw_address "1.2.3.0/-1" =
    Ok (PyInt (2 ^ (32 - -1) - 2)) /\
  2 ^ 32 <= 2 ^ (32 - -1) - 2.
Proof.
  apply (usable_hosts_negative_prefix "1.2.3.0/-1" (-1)); [reflexivity | lia].
Defined.

(** X20: for the prefix lengths 31 and 32 the two usable addresses fall
    outside the network: as numbers the first usable address, network
    address plus 1, is not below the broadcast address, and the
    penultimate usable address, broadcast address minus 2, is below the
    network address. *)
Theorem usable_addresses_outside_small_network raw a b c d p :
  split_address raw = Ok [a; b; c; d] -> byte_address [a; b; c; d] ->
  raw_prefix_length raw = Ok p -> 31 <= p <= 32 ->
  exists net bc first penultimate,
    get_network_address_from_raw_address raw = Ok (join_address net) /\
    get_broadcast_address_from_raw_address raw = Ok (join_address bc) /\
    get_first_usable_ip_address_from_raw_address raw = Ok (join_address first) /\
    get_penultimate_usable_ip_address_from_raw_address raw =
      Ok (join_address penultimate) /\
    address_value first = address_value net + 1 /\
    address_value penultimate = address_value bc - 2 /\
    address_value bc <= address_value first /\
    address_value penultimate < address_value net.
Proof.
  intros Hip Hoctets Hp Hrange.
  destruct (derived_addresses _ _ _ _ _ _ Hip Hp)
    as (m0 & m1 & m2 & m3 & _ & Hbytes & Hbits & Hnet & Hbc & Hfirst & Hpen);
    [lia|].
  cbv zeta in Hnet, Hbc.
  destruct (network_broadcast_values a b c d m0 m1 m2 m3 p)
    as [_ HB]; [done | done | lia | by apply Hbits; lia |].
  cbv zeta in HB.
  assert (2 ^ (32 - p) <= 2) as Hsmall.
  { pose proof (Z.pow_le_mono_r 2 (32 - p) 1). change (2 ^ 1) with 2 in *. lia. }
  eexists _, _, _, _.
  split; [exact Hnet|]. split; [exact Hbc|].
  split; [exact Hfirst|]. split; [exact Hpen|].
  unfold address_value in *. simpl fold_left in *. lia.
Qed.

Lemma usable_addresses_outside_small_network_witness :
  exists net bc first penultimate,
    get_network_address_from_raw_address "1.2.3.0/32" = Ok (join_address net) /\
    get_broadcast_address_from_raw_address "1.2.3.0/32" = Ok (join_address bc) /\
    get_first_usable_ip_address_from_raw_address "1.2.3.0/32" =
      Ok (join_address first) /\
    get_penultimate_usable_ip_address_from_raw_address "1.2.3.0/32" =
      Ok (join_address penultimate) /\
    address_value first = address_value net + 1 /\
    address_value penultimate = address_value bc - 2 /\
    address_value bc <= address_value first /\
    address_value penultimate < address_value net.
Proof.
  apply (usable_addresses_outside_small_network "1.2.3.0/32" 1 2 3 0 32);
    [reflexivity | | reflexivity | lia].
  split; [reflexivity|]. rewrite !Forall_cons, Forall_nil. unfold is_byte. lia.
Defined.
